(** * crud/MatchResult.py: the match-result repository

    A shallow embedding of the data-access functions of
    [crud/MatchResult.py] and the properties of its specification.

    The relational store is a record of tables, each a list of rows in
    storage order.  Every function of the source takes the session [db] and
    may raise; here it is a computation in a state-and-exception monad whose
    state (the store and the log) survives a raise, as Python's does. *)

From Stdlib Require Import ZArith List String Bool Lia Permutation Sorted.
From Stdlib Require Import DecimalString.
Import ListNotations.
Open Scope string_scope.
Open Scope Z_scope.

(** ** Data model *)

(** [datetime] values are carried as seconds since the epoch. *)
Definition datetime := Z.

(** [similarity_score] is a Python float.  The repository never computes on
    it (it is stored and handed back), so it is carried by its bit pattern. *)
Definition float := Z.

Module JobDescription.
Record t := mk { id : Z; requestor_email : string }.
End JobDescription.

(** What the attribute [availability] of a loaded consultant can be, as far
    as [get_top_3_matches] probes it: an object with a [value] attribute (an
    enum member, which also has a [name]), an object with a [name] only, or
    anything else, given with its [str()]. *)
Inductive Availability :=
| WithValue (name value : string)
| WithName (name repr : string)
| Plain (repr : string).

Definition Availability_eqb (a b : Availability) : bool :=
  match a, b with
  | WithValue n v, WithValue n' v' => String.eqb n n' && String.eqb v v'
  | WithName n r, WithName n' r' => String.eqb n n' && String.eqb r r'
  | Plain r, Plain r' => String.eqb r r'
  | _, _ => false
  end.

Module ConsultantProfile.
Record t := mk {
  id : Z;
  name : string;
  skills : string;
  experience : string;
  location : string;
  availability : Availability
}.
End ConsultantProfile.

Inductive WorkflowProgressEnum := PROCESSING | COMPLETED.

Module WorkflowStatus.
Record t := mk {
  id : Z;
  job_description_id : Z;
  steps : list (string * bool);
  progress : WorkflowProgressEnum
}.
Definition with_progress (p : WorkflowProgressEnum) (w : t) : t :=
  mk (id w) (job_description_id w) (steps w) p.
End WorkflowStatus.

Module Notification.
Record t := mk {
  id : Z;
  job_description_id : Z;
  recipient_email : string;
  workflow_status_id : Z;
  email_content : string;
  status : string;
  sent_at : datetime
}.
End Notification.

Module MatchResult.
Record t := mk {
  id : Z;
  job_description_id : Z;
  consultant_id : Z;
  similarity_score : float;
  rank : Z;
  matched_at : option datetime
}.
End MatchResult.

(** Modelled from the spec: [schema/MatchResult.py] is not under [src/].
    The specification's data model gives the entity the six fields above and
    describes the schema as the transport shape of a stored entity.  The
    schema carries the five non-key fields; whether it also declares the
    primary key [id] is left open (the flag [schema_has_id] below).  [id] is
    [None] when the schema has no such field, or has it and the payload
    leaves it unset. *)
Module MatchResultSchema.
Record t := mk {
  id : option Z;
  job_description_id : Z;
  consultant_id : Z;
  similarity_score : float;
  rank : Z;
  matched_at : option datetime
}.
End MatchResultSchema.

(** The store: one list of rows per table, in storage order. *)
Record DB := mkDB {
  job_descriptions : list JobDescription.t;
  consultant_profiles : list ConsultantProfile.t;
  workflow_statuses : list WorkflowStatus.t;
  notifications : list Notification.t;
  match_results : list MatchResult.t
}.

(** ** Exceptions, log and the monad *)

Definition HTTP_404_NOT_FOUND : Z := 404.
Definition HTTP_500_INTERNAL_SERVER_ERROR : Z := 500.

(** [HTTPException] is a subclass of [Exception]; every other exception the
    code can meet is [Raised] with its text. *)
Inductive exn :=
| HTTPException (status_code : Z) (detail : string)
| Raised (what : string).

Definition str_Z (z : Z) : string := NilZero.string_of_int (Z.to_int z).

Definition str_exn (e : exn) : string :=
  match e with
  | HTTPException c d => str_Z c ++ ": " ++ d
  | Raised w => w
  end.

Inductive level := DEBUG | INFO | WARNING | ERROR.

Inductive event :=
| Printed (msg : string)
| Logged (lvl : level) (msg : string).

Record State := mkState { db : DB; trace : list event }.

Definition M (A : Type) : Type := State -> State * (exn + A).

Definition ret {A} (a : A) : M A := fun s => (s, inr a).

Definition bind {A B} (c : M A) (k : A -> M B) : M B :=
  fun s => match c s with
           | (s', inr a) => k a s'
           | (s', inl e) => (s', inl e)
           end.

Definition raise {A} (e : exn) : M A := fun s => (s, inl e).

(** [try: body except Exception as e: handler e]. *)
Definition try_except {A} (body : M A) (handler : exn -> M A) : M A :=
  fun s => match body s with
           | (s', inl e) => handler e s'
           | r => r
           end.

Notation "x <- c ;; k" := (bind c (fun x => k))
  (at level 61, c at next level, right associativity).
Notation "c ;; k" := (bind c (fun _ => k))
  (at level 61, right associativity).

Definition emit (e : event) : M unit :=
  fun s => (mkState (db s) (trace s ++ [e]), inr tt).

Definition print (msg : string) : M unit := emit (Printed msg).
Definition logger_debug (msg : string) : M unit := emit (Logged DEBUG msg).
Definition logger_info (msg : string) : M unit := emit (Logged INFO msg).
Definition logger_warning (msg : string) : M unit := emit (Logged WARNING msg).
Definition logger_error (msg : string) : M unit := emit (Logged ERROR msg).

(** ** The session *)

(** [db.query(T).filter(p).first()] and [.all()]: rows are read in storage
    order. *)
Definition query_first {A} (table : DB -> list A) (p : A -> bool) : M (option A) :=
  fun s => (s, inr (find p (table (db s)))).

Definition query_all {A} (table : DB -> list A) (p : A -> bool) : M (list A) :=
  fun s => (s, inr (filter p (table (db s)))).

Definition update_db (f : DB -> DB) : M unit :=
  fun s => (mkState (f (db s)) (trace s), inr tt).

(** Every [db.add] and [db.delete] of the source is followed by
    [db.commit()] with nothing that can raise in between, so the pending
    state of the session and the committed state agree wherever they are
    read; writes go to the store at once and [commit] only marks the place. *)
Definition commit : M unit := ret tt.

Definition set_match_results (rows : list MatchResult.t) (d : DB) : DB :=
  mkDB (job_descriptions d) (consultant_profiles d) (workflow_statuses d)
       (notifications d) rows.

Definition set_workflow_statuses (rows : list WorkflowStatus.t) (d : DB) : DB :=
  mkDB (job_descriptions d) (consultant_profiles d) rows
       (notifications d) (match_results d).

Definition set_notifications (rows : list Notification.t) (d : DB) : DB :=
  mkDB (job_descriptions d) (consultant_profiles d) (workflow_statuses d)
       rows (match_results d).

(** The key the store gives a row inserted without one: above every key of
    the table, hence fresh. *)
Definition next_id (ids : list Z) : Z := fold_right Z.max 0 ids + 1.

(** [ORDER BY rank ASC]: a stable insertion sort, so rows of equal rank keep
    their storage order. *)
Fixpoint insert_by_rank (r : MatchResult.t) (l : list MatchResult.t) : list MatchResult.t :=
  match l with
  | [] => [r]
  | x :: t =>
      if MatchResult.rank r <=? MatchResult.rank x then r :: x :: t
      else x :: insert_by_rank r t
  end.

Definition order_by_rank_asc (l : list MatchResult.t) : list MatchResult.t :=
  fold_right insert_by_rank [] l.

(** The filters [MatchResult.id == k] and [MatchResult.job_description_id == j]. *)
Definition has_id (k : Z) (m : MatchResult.t) : bool := MatchResult.id m =? k.

Definition of_job (j : Z) (m : MatchResult.t) : bool :=
  MatchResult.job_description_id m =? j.

(** [.filter(MatchResult.job_description_id == j).order_by(MatchResult.rank.asc()).limit(n).all()]
    for a count [n] that is not negative. *)
Definition top_rows (j : Z) (n : nat) (d : DB) : list MatchResult.t :=
  firstn n (order_by_rank_asc (filter (of_job j) (match_results d))).

Definition query_top (j : Z) (n : nat) : M (list MatchResult.t) :=
  fun s => (s, inr (top_rows j n (db s))).

(** ** Collaborators *)

(** Modelled from the spec: [utility/agentic_flow.py] is not under [src/].
    Its contract is [run_agent_matching(session, jobDescription,
    consultantProfiles)] returning [{message, all_matches: [{profile,
    similarity_score}, ...]}], or [None]/falsy when it produces no result. *)
Module Match.
Record t := mk { profile : ConsultantProfile.t; similarity_score : float }.
End Match.

Record AgentResult := mkAgentResult {
  message : string;
  all_matches : list Match.t
}.

(** What this file imports and does not define.  The matching routine is
    handed the session, so it may change the store, and may raise; the mail
    sender may raise ([Some e]) or return ([None]). *)
Record Env := mkEnv {
  run_agent_matching :
    DB -> option JobDescription.t -> list ConsultantProfile.t ->
    DB * (exn + option AgentResult);
  send_email : string -> string -> string -> option exn;
  ConsultantEnum_unavailable : Availability;
  datetime_now : datetime;
  (** the column default of [MatchResult.matched_at] *)
  matched_at_default : option datetime;
  (** whether [MatchResultSchema] declares the primary key [id] *)
  schema_has_id : bool;
  isoformat : datetime -> string;
  (** what the database does with a negative [LIMIT]: refuse the query
      ([true], as PostgreSQL and MySQL do) or apply no limit ([false], as
      SQLite does) *)
  limit_refuses_negative : bool
}.

(** ** Values returned to the caller *)

Record ProfileDict (A : Type) := mkProfileDict {
  pd_id : Z;
  pd_name : string;
  pd_skills : string;
  pd_experience : string;
  pd_location : string;
  pd_availability : A
}.
Arguments mkProfileDict {A}.
Arguments pd_id {A}.
Arguments pd_availability {A}.

(** An entry of the list [get_all_match_results] returns. *)
Record SerializedMatch := mkSerializedMatch {
  sm_profile : ProfileDict Availability;
  sm_similarity_score : float;
  sm_rank : Z
}.

(** An entry of the list [get_top_3_matches] returns. *)
Record RankedProfile := mkRankedProfile {
  rp_profile : option (ProfileDict string);
  rp_similarity_score : float;
  rp_rank : Z;
  rp_ranked_at : option string
}.

Fixpoint enumerate_from {A} (i : Z) (l : list A) : list (Z * A) :=
  match l with
  | [] => []
  | x :: t => (i, x) :: enumerate_from (i + 1) t
  end.

Definition enumerate {A} (l : list A) : list (Z * A) := enumerate_from 0 l.

Fixpoint for_each {A} (l : list A) (body : A -> M unit) : M unit :=
  match l with
  | [] => ret tt
  | x :: t => body x ;; for_each t body
  end.

Definition is_empty {A} (l : list A) : bool :=
  match l with [] => true | _ => false end.

Definition is_None {A} (o : option A) : bool :=
  match o with None => true | Some _ => false end.

(** The ["profile"] dictionary of an entry of [serialized_matches]. *)
Definition profile_dict (p : ConsultantProfile.t) : ProfileDict Availability :=
  mkProfileDict (ConsultantProfile.id p) (ConsultantProfile.name p)
    (ConsultantProfile.skills p) (ConsultantProfile.experience p)
    (ConsultantProfile.location p) (ConsultantProfile.availability p).

Definition serialize_match (idx : Z) (m : Match.t) : SerializedMatch :=
  mkSerializedMatch (profile_dict (Match.profile m)) (Match.similarity_score m) (idx + 1).

(** The probing of [availability] in [get_top_3_matches]. *)
Definition availability_text (a : Availability) : string :=
  match a with
  | WithValue _ v => v
  | WithName n _ => n
  | Plain r => r
  end.

Definition consultant_data (c : ConsultantProfile.t) : ProfileDict string :=
  mkProfileDict (ConsultantProfile.id c) (ConsultantProfile.name c)
    (ConsultantProfile.skills c) (ConsultantProfile.experience c)
    (ConsultantProfile.location c)
    (availability_text (ConsultantProfile.availability c)).

(** ** The repository functions *)

Section Repository.

Variable env : Env.

(** [MatchResultSchema.model_validate(row)]. *)
Definition model_validate (r : MatchResult.t) : MatchResultSchema.t :=
  MatchResultSchema.mk
    (if schema_has_id env then Some (MatchResult.id r) else None)
    (MatchResult.job_description_id r)
    (MatchResult.consultant_id r)
    (MatchResult.similarity_score r)
    (MatchResult.rank r)
    (MatchResult.matched_at r).

(** The key a row carries after [setattr] ran over
    [payload.model_dump().items()]: the payload's when the schema has the
    field, the row's own otherwise. *)
Definition dumped_id (p : MatchResultSchema.t) (own : option Z) : option Z :=
  if schema_has_id env then MatchResultSchema.id p else own.

(** The other columns are all taken from the payload. *)
Definition from_payload (key : Z) (p : MatchResultSchema.t) : MatchResult.t :=
  MatchResult.mk key
    (MatchResultSchema.job_description_id p)
    (MatchResultSchema.consultant_id p)
    (MatchResultSchema.similarity_score p)
    (MatchResultSchema.rank p)
    (MatchResultSchema.matched_at p).

(** [result = run_agent_matching(db, jd, profiles)]. *)
Definition call_run_agent_matching (jd : option JobDescription.t)
    (profiles : list ConsultantProfile.t) : M (option AgentResult) :=
  fun s => let (d, r) := run_agent_matching env (db s) jd profiles in
           (mkState d (trace s), r).

(** [jd.requestor_email], where [jd] may be [None]. *)
Definition requestor_email_of (jd : option JobDescription.t) : M string :=
  match jd with
  | Some j => ret (JobDescription.requestor_email j)
  | None => raise (Raised "'NoneType' object has no attribute 'requestor_email'")
  end.

Definition call_send_email (recipient subject body : string) : M unit :=
  match send_email env recipient subject body with
  | None => ret tt
  | Some e => raise e
  end.

(** The filters of the two queries that open [get_all_match_results]. *)
Definition is_job (j : Z) (x : JobDescription.t) : bool := JobDescription.id x =? j.
Definition not_unavailable (p : ConsultantProfile.t) : bool :=
  negb (Availability_eqb (ConsultantProfile.availability p)
          (ConsultantEnum_unavailable env)).
Definition workflow_of_job (j : Z) (w : WorkflowStatus.t) : bool :=
  WorkflowStatus.job_description_id w =? j.

(** [db.add(WorkflowStatus(...))]. *)
Definition with_workflow_status (j : Z) (d : DB) : DB :=
  set_workflow_statuses
    (workflow_statuses d ++
     [WorkflowStatus.mk (next_id (map WorkflowStatus.id (workflow_statuses d))) j
        [("jd_parsed", true); ("profiles_compared", false)] PROCESSING]) d.

Definition add_workflow_status (j : Z) : M unit :=
  update_db (with_workflow_status j).

(** [workflow_status.progress = COMPLETED; db.add(workflow_status)]: an
    [UPDATE] of the row with that key. *)
Definition with_completed (w : WorkflowStatus.t) (d : DB) : DB :=
  set_workflow_statuses
    (map (fun x => if WorkflowStatus.id x =? WorkflowStatus.id w
                   then WorkflowStatus.with_progress COMPLETED x else x)
         (workflow_statuses d)) d.

Definition complete_workflow_status (w : option WorkflowStatus.t) : M WorkflowStatus.t :=
  match w with
  | None => raise (Raised "'NoneType' object has no attribute 'progress'")
  | Some w =>
      update_db (with_completed w) ;;
      ret (WorkflowStatus.with_progress COMPLETED w)
  end.

(** [db.query(MatchResult).filter(job_description_id == j).delete()]. *)
Definition without_matches_of_job (j : Z) (d : DB) : DB :=
  set_match_results (filter (fun m => negb (of_job j m)) (match_results d)) d.

Definition delete_matches_of_job (j : Z) : M unit :=
  update_db (without_matches_of_job j).

(** [db.add(MatchResult(rank=idx + 1, job_description_id=...,
    consultant_id=..., similarity_score=...))]. *)
Definition matched_profile (j : Z) (im : Z * Match.t) (key : Z) : MatchResult.t :=
  MatchResult.mk key j
    (ConsultantProfile.id (Match.profile (snd im)))
    (Match.similarity_score (snd im)) (fst im + 1) (matched_at_default env).

Definition with_matched_profile (j : Z) (im : Z * Match.t) (d : DB) : DB :=
  set_match_results
    (match_results d ++
     [matched_profile j im (next_id (map MatchResult.id (match_results d)))]) d.

Definition add_matched_profile (j : Z) (im : Z * Match.t) : M unit :=
  update_db (with_matched_profile j im).

Definition with_notification (j : Z) (recipient : string) (w : Z)
    (content : string) (d : DB) : DB :=
  set_notifications
    (notifications d ++
     [Notification.mk (next_id (map Notification.id (notifications d))) j
        recipient w content "sent" (datetime_now env)]) d.

Definition add_notification (j : Z) (recipient : string) (w : Z)
    (content : string) : M unit :=
  update_db (with_notification j recipient w content).

Definition get_all_match_results (jobDescription_id : Z) : M (list SerializedMatch) :=
  try_except
    (logger_debug "Fetching all match results from the database." ;;
     jd <- query_first job_descriptions (is_job jobDescription_id) ;;
     profiles <- query_all consultant_profiles not_unavailable ;;
     (if is_None jd || is_empty profiles
      then print ("Job Descriptions or Profiles not found for Job ID: "
                  ++ str_Z jobDescription_id)
      else ret tt) ;;
     add_workflow_status jobDescription_id ;;
     commit ;;
     logger_debug "Invoking run_agent_matching function." ;;
     result <- call_run_agent_matching jd profiles ;;
     match result with
     | None =>
         logger_warning "Couldn't start  for  <built-in function id> not found fo." ;;
         raise (HTTPException HTTP_404_NOT_FOUND "Workflow status not found.")
     | Some result =>
         try_except
           (recipient <- requestor_email_of jd ;;
            call_send_email recipient "test" (message result))
           (fun e => logger_error
              ("Error during send email notification agent " ++ str_exn e)) ;;
         workflow_status <- query_first workflow_statuses
             (workflow_of_job jobDescription_id) ;;
         workflow_status <- complete_workflow_status workflow_status ;;
         commit ;;
         (if is_empty (all_matches result)
          then print ("No matches found for job_id: " ++ str_Z jobDescription_id)
          else ret tt) ;;
         delete_matches_of_job jobDescription_id ;;
         commit ;;
         for_each (enumerate (all_matches result))
                  (add_matched_profile jobDescription_id) ;;
         commit ;;
         recipient <- requestor_email_of jd ;;
         add_notification jobDescription_id recipient
           (WorkflowStatus.id workflow_status) (message result) ;;
         commit ;;
         logger_info "Successfully fetched all match results." ;;
         ret (map (fun im => serialize_match (fst im) (snd im))
                  (enumerate (all_matches result)))
     end)
    (fun e =>
       logger_error ("Error occurred while fetching match results: " ++ str_exn e) ;;
       raise (HTTPException HTTP_500_INTERNAL_SERVER_ERROR
                "An error occurred while fetching match results.")).

(** The handlers the other functions share:
    [except HTTPException as http_exc: raise http_exc] and then
    [except Exception as e: logger.error(...); raise HTTPException(500, ...)]. *)
Definition reraise_or_500 {A} (log_prefix detail : string) (e : exn) : M A :=
  match e with
  | HTTPException _ _ => raise e
  | Raised _ =>
      logger_error (log_prefix ++ str_exn e) ;;
      raise (HTTPException HTTP_500_INTERNAL_SERVER_ERROR detail)
  end.

(** One iteration of the loop of [get_top_3_matches]. *)
Definition serialize_ranked (profile : MatchResult.t) : M RankedProfile :=
  consultant <- query_first consultant_profiles
      (fun c => ConsultantProfile.id c =? MatchResult.consultant_id profile) ;;
  let consultant_data :=
    match consultant with
    | Some c => Some (consultant_data c)
    | None => None
    end in
  ret (mkRankedProfile consultant_data
         (MatchResult.similarity_score profile)
         (MatchResult.rank profile)
         (match MatchResult.matched_at profile with
          | Some t => Some (isoformat env t)
          | None => None
          end)).

Fixpoint map_M {A B} (f : A -> M B) (l : list A) : M (list B) :=
  match l with
  | [] => ret []
  | x :: t => y <- f x ;; ys <- map_M f t ;; ret (y :: ys)
  end.

Definition get_top_3_matches (jd_id : Z) : M (list RankedProfile) :=
  try_except
    (logger_debug "Fetching top 3 results with full profile details" ;;
     top_3_profiles <- query_top jd_id 3 ;;
     serialized_results <- map_M serialize_ranked top_3_profiles ;;
     ret serialized_results)
    (reraise_or_500
       ("Error occurred while fetching match result by ID " ++ str_Z jd_id ++ ": ")
       "An error occurred while fetching the match result.").

Definition get_match_result_by_id (id : Z) : M MatchResultSchema.t :=
  try_except
    (logger_debug ("Fetching match result with ID: " ++ str_Z id ++ ".") ;;
     result <- query_first match_results (has_id id) ;;
     match result with
     | None =>
         logger_warning ("Match result with ID " ++ str_Z id ++ " not found.") ;;
         raise (HTTPException HTTP_404_NOT_FOUND "Match result not found.")
     | Some result =>
         let match_result := model_validate result in
         logger_info ("Successfully fetched match result with ID: " ++ str_Z id ++ ".") ;;
         ret match_result
     end)
    (reraise_or_500
       ("Error occurred while fetching match result by ID " ++ str_Z id ++ ": ")
       "An error occurred while fetching the match result.").

Definition get_match_results_by_job_description_id (job_description_id : Z)
    : M (list MatchResultSchema.t) :=
  try_except
    (logger_debug ("Fetching match results for job description ID: "
                   ++ str_Z job_description_id ++ ".") ;;
     result <- query_all match_results (of_job job_description_id) ;;
     if is_empty result then
       logger_warning ("No match results found for job description ID: "
                       ++ str_Z job_description_id ++ ".") ;;
       raise (HTTPException HTTP_404_NOT_FOUND
                "No match results found for the given job description ID.")
     else
       let match_results := map model_validate result in
       logger_info ("Successfully fetched match results for job description ID: "
                    ++ str_Z job_description_id ++ ".") ;;
       ret match_results)
    (reraise_or_500
       ("Error occurred while fetching match results for job description ID "
        ++ str_Z job_description_id ++ ": ")
       "An error occurred while fetching match results for the job description ID.").

Definition read_db : M DB := fun s => (s, inr (db s)).

(** The row an [INSERT] stores for a payload: a [matched_at] the payload
    leaves at [None] is left out of the statement, so the column default
    applies, as it does for the rows of [get_all_match_results]. *)
Definition inserted_from_payload (key : Z) (p : MatchResultSchema.t) : MatchResult.t :=
  MatchResult.mk key
    (MatchResultSchema.job_description_id p)
    (MatchResultSchema.consultant_id p)
    (MatchResultSchema.similarity_score p)
    (MatchResultSchema.rank p)
    (match MatchResultSchema.matched_at p with
     | Some t => Some t
     | None => matched_at_default env
     end).

(** [db.add] of a [MatchResult] built from the dumped payload, and the
    flush: a payload
    without a key gets the next one; a key already in use violates the
    primary-key constraint. *)
Definition insert_from_payload (p : MatchResultSchema.t) : M MatchResult.t :=
  d <- read_db ;;
  match dumped_id p None with
  | None =>
      let row := inserted_from_payload (next_id (map MatchResult.id (match_results d))) p in
      update_db (set_match_results (match_results d ++ [row])) ;;
      ret row
  | Some key =>
      if existsb (has_id key) (match_results d)
      then raise (Raised "IntegrityError: duplicate key")
      else
        let row := inserted_from_payload key p in
        update_db (set_match_results (match_results d ++ [row])) ;;
        ret row
  end.

Definition add_match_result (match_result_request : MatchResultSchema.t)
    : M MatchResultSchema.t :=
  try_except
    (logger_debug "Attempting to add a new match result." ;;
     new_match_result <- insert_from_payload match_result_request ;;
     commit ;;
     logger_info "Successfully added a new match result." ;;
     ret (model_validate new_match_result))
    (fun e =>
       logger_error ("Error occurred while adding a new match result: " ++ str_exn e) ;;
       raise (HTTPException HTTP_500_INTERNAL_SERVER_ERROR
                "An error occurred while adding the match result.")).

(** The [setattr] loop over the dumped payload, [db.add(result)] and the
    flush: an [UPDATE] of the row whose key is [own].  Every column is set
    from the payload.  A payload that carries [None] for the key, or a key
    another row already has, makes the flush raise. *)
Definition overwrite_from_payload (own : Z) (p : MatchResultSchema.t)
    : M MatchResult.t :=
  d <- read_db ;;
  match dumped_id p (Some own) with
  | None => raise (Raised "FlushError: NULL for primary key value")
  | Some key =>
      if negb (key =? own) && existsb (has_id key) (match_results d)
      then raise (Raised "IntegrityError: duplicate key")
      else
        update_db (set_match_results
          (map (fun m => if has_id own m then from_payload key p else m)
               (match_results d))) ;;
        ret (from_payload key p)
  end.

Definition update_match_result_by_id (id : Z)
    (match_result_request : MatchResultSchema.t) : M MatchResultSchema.t :=
  try_except
    (logger_debug ("Attempting to update match result with ID: " ++ str_Z id ++ ".") ;;
     result <- query_first match_results (has_id id) ;;
     match result with
     | None =>
         logger_warning ("Match result with ID " ++ str_Z id ++ " not found for update.") ;;
         raise (HTTPException HTTP_404_NOT_FOUND "Match result not found.")
     | Some result =>
         result <- overwrite_from_payload (MatchResult.id result) match_result_request ;;
         commit ;;
         logger_info ("Successfully updated match result with ID: " ++ str_Z id ++ ".") ;;
         ret (model_validate result)
     end)
    (reraise_or_500
       ("Error occurred while updating match result with ID " ++ str_Z id ++ ": ")
       "An error occurred while updating the match result.").

(** [db.delete(result)]: a [DELETE] of the row with that key. *)
Definition db_delete (result : MatchResult.t) : M unit :=
  update_db (fun d =>
    set_match_results
      (filter (fun m => negb (has_id (MatchResult.id result) m)) (match_results d)) d).

Definition delete_match_result_by_id (id : Z) : M unit :=
  try_except
    (logger_debug ("Attempting to delete match result with ID: " ++ str_Z id ++ ".") ;;
     result <- query_first match_results (has_id id) ;;
     match result with
     | None =>
         logger_warning ("Match result with ID " ++ str_Z id ++ " not found for deletion.") ;;
         raise (HTTPException HTTP_404_NOT_FOUND "Match result not found.")
     | Some result =>
         db_delete result ;;
         commit ;;
         logger_info ("Successfully deleted match result with ID: " ++ str_Z id ++ ".")
     end)
    (reraise_or_500
       ("Error occurred while deleting match result with ID " ++ str_Z id ++ ": ")
       "An error occurred while deleting the match result.").

(** [.filter(...).order_by(MatchResult.rank.asc()).limit(top_n).all()] with
    [top_n] any integer, passed to [LIMIT] as it is: a negative one makes
    the database raise or return every row of the job, as the backend has
    it. *)
Definition query_limit (j : Z) (top_n : Z) : M (list MatchResult.t) :=
  if top_n <? 0 then
    if limit_refuses_negative env
    then raise (Raised "LIMIT must not be negative")
    else fun s => (s, inr (order_by_rank_asc
                             (filter (of_job j) (match_results (db s)))))
  else query_top j (Z.to_nat top_n).

Definition get_top_match_results_by_job_description_id
    (job_description_id : Z) (top_n : Z) : M (list MatchResultSchema.t) :=
  try_except
    (logger_debug ("Fetching top " ++ str_Z top_n
                   ++ " match results for job description ID: "
                   ++ str_Z job_description_id ++ ".") ;;
     result <- query_limit job_description_id top_n ;;
     if is_empty result then
       logger_warning ("No match results found for job description ID: "
                       ++ str_Z job_description_id ++ ".") ;;
       raise (HTTPException HTTP_404_NOT_FOUND
                "No match results found for the given job description ID.")
     else
       let match_results := map model_validate result in
       logger_info ("Successfully fetched top " ++ str_Z top_n
                    ++ " match results for job description ID: "
                    ++ str_Z job_description_id ++ ".") ;;
       ret match_results)
    (reraise_or_500
       ("Error occurred while fetching top match results for job description ID "
        ++ str_Z job_description_id ++ ": ")
       "An error occurred while fetching top match results for the job description ID.").

End Repository.

(** The outcome a caller sees: the store a run leaves and what it returned or
    raised. *)
Definition run {A} (c : M A) (d : DB) : DB * (exn + A) :=
  let (s, r) := c (mkState d []) in (db s, r).

Definition run_trace {A} (c : M A) (d : DB) : list event :=
  trace (fst (c (mkState d []))).

(** ** Notions the statements use *)

Definition rank_le (a b : MatchResult.t) : Prop :=
  MatchResult.rank a <= MatchResult.rank b.

Definition not_found (detail : string) : exn :=
  HTTPException HTTP_404_NOT_FOUND detail.

Definition internal_error (detail : string) : exn :=
  HTTPException HTTP_500_INTERNAL_SERVER_ERROR detail.

(** The entry [get_top_3_matches] builds for a row, given the store. *)
Definition ranked_profile (env : Env) (d : DB) (row : MatchResult.t) : RankedProfile :=
  mkRankedProfile
    (option_map consultant_data
       (find (fun c => ConsultantProfile.id c =? MatchResult.consultant_id row)
             (consultant_profiles d)))
    (MatchResult.similarity_score row)
    (MatchResult.rank row)
    (option_map (isoformat env) (MatchResult.matched_at row)).

Definition deleted (k : Z) (d : DB) : DB :=
  set_match_results (filter (fun m => negb (has_id k m)) (match_results d)) d.

Definition overwritten (own key : Z) (p : MatchResultSchema.t) (d : DB) : DB :=
  set_match_results
    (map (fun m => if has_id own m then from_payload key p else m) (match_results d)) d.

Definition with_matches (env : Env) (j : Z) (ms : list Match.t) (d : DB) : DB :=
  fold_left (fun d im => with_matched_profile env j im d) (enumerate ms) d.

Definition serialized_matches (ms : list Match.t) : list SerializedMatch :=
  map (fun im => serialize_match (fst im) (snd im)) (enumerate ms).

Definition recompute_error : exn :=
  internal_error "An error occurred while fetching match results.".

(** The rows the insertion loop appends to a table, with the keys the store
    gives them. *)
Fixpoint new_rows (env : Env) (j : Z) (l : list (Z * Match.t))
    (table : list MatchResult.t) : list MatchResult.t :=
  match l with
  | [] => []
  | im :: t =>
      let row := matched_profile env j im (next_id (map MatchResult.id table)) in
      row :: new_rows env j t (table ++ [row])
  end.

(** What a stored row says, its key and timestamp apart, and what the
    matching routine said at a position of its list. *)
Definition stored_entry (m : MatchResult.t) : Z * Z * float * Z :=
  (MatchResult.job_description_id m, MatchResult.consultant_id m,
   MatchResult.similarity_score m, MatchResult.rank m).

Definition computed_entry (j : Z) (im : Z * Match.t) : Z * Z * float * Z :=
  (j, ConsultantProfile.id (Match.profile (snd im)),
   Match.similarity_score (snd im), fst im + 1).

Definition one_to (k : nat) : list Z := map Z.of_nat (seq 1 k).

Definition with_send_email (f : string -> string -> string -> option exn)
    (env : Env) : Env :=
  mkEnv (run_agent_matching env) f (ConsultantEnum_unavailable env)
        (datetime_now env) (matched_at_default env) (schema_has_id env)
        (isoformat env) (limit_refuses_negative env).

Definition schema_rank_le (a b : MatchResultSchema.t) : Prop :=
  MatchResultSchema.rank a <= MatchResultSchema.rank b.

(** What [get_match_result_by_id] returns for [id] once
    [update_match_result_by_id] has run with [id] and the payload [p]. *)
Definition fetch_after_update (env : Env) (d : DB) (id : Z) (p : MatchResultSchema.t)
    : exn + MatchResultSchema.t :=
  snd (run (get_match_result_by_id env id)
           (fst (run (update_match_result_by_id env id p) d))).

(** The same for [delete_match_result_by_id]. *)
Definition fetch_after_delete (env : Env) (d : DB) (id : Z)
    : exn + MatchResultSchema.t :=
  snd (run (get_match_result_by_id env id)
           (fst (run (delete_match_result_by_id id) d))).

Definition ann : ConsultantProfile.t :=
  ConsultantProfile.mk 11 "Ann" "python" "5 years" "Pune" (WithValue "available" "available").

Definition bob : ConsultantProfile.t :=
  ConsultantProfile.mk 12 "Bob" "go" "3 years" "Goa" (Plain "busy").

Definition sample_result : AgentResult :=
  mkAgentResult "Two consultants match." [Match.mk ann 90; Match.mk bob 70].

(** A matching routine that leaves the store alone and returns [answer]; a
    mail sender that does what [mail] says; a schema with or without [id]; a
    database for which a negative [LIMIT] means no limit. *)
Definition sample_env (answer : option AgentResult) (mail : option exn)
    (with_id : bool) : Env :=
  mkEnv (fun d _ _ => (d, inr answer)) (fun _ _ _ => mail)
        (WithValue "unavailable" "unavailable") 1700000000 (Some 1700000000)
        with_id str_Z false.

(** Job 1 with two stored matches (keys 5 and 7, the consultant of 7 has no
    profile), job 2 with one, job 9 with none. *)
Definition sample_db : DB :=
  mkDB [JobDescription.mk 1 "requestor@example.org"]
       [ann; bob]
       []
       []
       [MatchResult.mk 5 1 12 40 2 None;
        MatchResult.mk 6 2 11 55 1 None;
        MatchResult.mk 7 1 99 80 1 (Some 1600000000)].

(** The same store without any job description. *)
Definition sample_db_without_job : DB :=
  mkDB [] [ann; bob] [] [] (match_results sample_db).

Definition smtp_down : exn := Raised "SMTPException".

Definition sample_payload (key : option Z) : MatchResultSchema.t :=
  MatchResultSchema.mk key 2 12 33 4 (Some 1650000000).

(** The sample collaborators with a mail sender that raises. *)
Definition mail_down_env : Env :=
  sample_env (Some sample_result) (Some smtp_down) true.

(** The store the matching routine leaves when [get_all_match_results] calls
    it, and what it returns or raises there. *)
Definition after_matching (env : Env) (j : Z) (d : DB) : DB :=
  fst (run_agent_matching env (with_workflow_status j d)
         (find (is_job j) (job_descriptions d))
         (filter (not_unavailable env) (consultant_profiles d))).

Definition matching_answer (env : Env) (j : Z) (d : DB) : exn + option AgentResult :=
  snd (run_agent_matching env (with_workflow_status j d)
         (find (is_job j) (job_descriptions d))
         (filter (not_unavailable env) (consultant_profiles d))).

(** Job, consultant, score and rank as a returned record states them. *)
Definition schema_entry (s : MatchResultSchema.t) : Z * Z * float * Z :=
  (MatchResultSchema.job_description_id s, MatchResultSchema.consultant_id s,
   MatchResultSchema.similarity_score s, MatchResultSchema.rank s).

Definition serialized_entry (j : Z) (s : SerializedMatch) : Z * Z * float * Z :=
  (j, pd_id (sm_profile s), sm_similarity_score s, sm_rank s).

(** A returned record has the payload's job, consultant, score and rank, and
    the payload's [matched_at], or the column default when the payload has
    none. *)
Definition same_fields (env : Env) (p r : MatchResultSchema.t) : Prop :=
  schema_entry p = schema_entry r /\
  MatchResultSchema.matched_at r =
    match MatchResultSchema.matched_at p with
    | Some t => Some t
    | None => matched_at_default env
    end.

(** What [get_match_result_by_id] returns for [id]. *)
Definition fetch (env : Env) (d : DB) (id : Z) : exn + MatchResultSchema.t :=
  snd (run (get_match_result_by_id env id) d).

(** What [get_match_results_by_job_description_id] returns for [j]. *)
Definition listing (env : Env) (d : DB) (j : Z) : exn + list MatchResultSchema.t :=
  snd (run (get_match_results_by_job_description_id env j) d).

(** What [get_top_match_results_by_job_description_id] returns for [j] and
    the count [n]. *)
Definition top (env : Env) (d : DB) (j : Z) (n : nat) : exn + list MatchResultSchema.t :=
  snd (run (get_top_match_results_by_job_description_id env j (Z.of_nat n)) d).

(** A store whose job 1 already has a workflow-status row from an earlier
    run. *)
Definition sample_db_second_run : DB :=
  set_workflow_statuses
    [WorkflowStatus.mk 1 1 [("jd_parsed", true); ("profiles_compared", false)] COMPLETED]
    sample_db.

(** A matching routine that raises. *)
Definition matching_down_env : Env :=
  mkEnv (fun d _ _ => (d, inl (Raised "TimeoutError"))) (fun _ _ _ => None)
        (WithValue "unavailable" "unavailable") 1700000000 (Some 1700000000)
        true str_Z false.

(** A matching routine that returns a result without matches. *)
Definition no_match_env : Env :=
  sample_env (Some (mkAgentResult "No consultant matches." [])) None true.

(** A payload that names no key and no [matched_at]. *)
Definition bare_payload : MatchResultSchema.t :=
  MatchResultSchema.mk None 2 12 33 4 None.

(** The sample collaborators with a matching routine that returns
    [sample_result] and a mail sender that returns. *)
Definition matching_env : Env := sample_env (Some sample_result) None true.

(** * Properties *)

Arguments str_Z : simpl never.
Arguments String.append : simpl never.

(** ** Ordering by rank *)

Lemma insert_by_rank_perm r l : Permutation (r :: l) (insert_by_rank r l).
Proof.
  induction l as [|x t IH]; simpl.
  - apply Permutation_refl.
  - destruct (MatchResult.rank r <=? MatchResult.rank x).
    + apply Permutation_refl.
    + apply perm_trans with (x :: r :: t).
      * apply perm_swap.
      * apply perm_skip, IH.
Qed.

Lemma order_by_rank_asc_perm l : Permutation l (order_by_rank_asc l).
Proof.
  induction l as [|x t IH]; simpl.
  - apply perm_nil.
  - apply perm_trans with (x :: order_by_rank_asc t).
    + apply perm_skip, IH.
    + apply insert_by_rank_perm.
Qed.

Lemma insert_by_rank_sorted r l :
  StronglySorted rank_le l -> StronglySorted rank_le (insert_by_rank r l).
Proof.
  induction 1 as [|x t Hs IH Hx]; simpl.
  - constructor; constructor.
  - destruct (Z.leb_spec (MatchResult.rank r) (MatchResult.rank x)) as [Hle|Hgt].
    + constructor.
      * constructor; assumption.
      * constructor; [exact Hle|].
        rewrite Forall_forall in Hx |- *. intros y Hy.
        specialize (Hx y Hy). unfold rank_le in *. lia.
    + constructor; [exact IH|].
      rewrite Forall_forall in Hx |- *. intros y Hy.
      apply Permutation_sym in Hy || idtac.
      pose proof (insert_by_rank_perm r t) as P.
      apply (Permutation_in y (Permutation_sym P)) in Hy.
      destruct Hy as [<-|Hy].
      * unfold rank_le. lia.
      * apply Hx, Hy.
Qed.

Lemma order_by_rank_asc_sorted l : StronglySorted rank_le (order_by_rank_asc l).
Proof.
  induction l as [|x t IH]; simpl.
  - constructor.
  - apply insert_by_rank_sorted, IH.
Qed.

Lemma sorted_app_inv (l1 l2 : list MatchResult.t) :
  StronglySorted rank_le (l1 ++ l2) ->
  StronglySorted rank_le l1 /\
  (forall x y, In x l1 -> In y l2 -> rank_le x y).
Proof.
  induction l1 as [|a t IH]; simpl; intros H.
  - split; [constructor | intros x y []].
  - inversion H as [|? ? Hs Hall]; subst.
    destruct (IH Hs) as [Ht Hcross]. split.
    + constructor; [exact Ht|].
      rewrite Forall_forall in Hall |- *. intros y Hy.
      apply Hall, in_or_app. left; exact Hy.
    + intros x y [<-|Hx] Hy.
      * rewrite Forall_forall in Hall. apply Hall, in_or_app. right; exact Hy.
      * apply Hcross; assumption.
Qed.

(** The rows [query_top] returns and the rows it leaves out. *)
Lemma top_rows_split j n d :
  let sorted := order_by_rank_asc (filter (of_job j) (match_results d)) in
  Permutation (filter (of_job j) (match_results d)) (top_rows j n d ++ skipn n sorted) /\
  StronglySorted rank_le (top_rows j n d) /\
  (forall x y, In x (top_rows j n d) -> In y (skipn n sorted) -> rank_le x y) /\
  (List.length (top_rows j n d) <= n)%nat.
Proof.
  intros sorted. unfold top_rows. fold sorted.
  pose proof (order_by_rank_asc_sorted (filter (of_job j) (match_results d))) as Hs.
  fold sorted in Hs. rewrite <- (firstn_skipn n sorted) in Hs.
  destruct (sorted_app_inv _ _ Hs) as [H1 H2].
  repeat split.
  - rewrite firstn_skipn. apply order_by_rank_asc_perm.
  - exact H1.
  - exact H2.
  - apply firstn_le_length.
Qed.

(** ** What a run of each function amounts to *)

Ltac run_monad :=
  unfold run, try_except, bind, ret, raise, reraise_or_500, commit,
    logger_debug, logger_info, logger_warning, logger_error, print, emit,
    query_first, query_all, query_top, update_db, read_db;
  simpl.

Lemma get_match_result_by_id_run env d id :
  run (get_match_result_by_id env id) d =
  (d, match find (has_id id) (match_results d) with
      | Some r => inr (model_validate env r)
      | None => inl (not_found "Match result not found.")
      end).
Proof.
  unfold get_match_result_by_id. run_monad.
  destruct (find (has_id id) (match_results d)); reflexivity.
Qed.

Lemma get_match_results_by_job_description_id_run env d j :
  run (get_match_results_by_job_description_id env j) d =
  (d, match filter (of_job j) (match_results d) with
      | [] => inl (not_found "No match results found for the given job description ID.")
      | rows => inr (map (model_validate env) rows)
      end).
Proof.
  unfold get_match_results_by_job_description_id. run_monad.
  destruct (filter (of_job j) (match_results d)); reflexivity.
Qed.

Lemma get_top_match_results_by_job_description_id_run env d j (n : nat) :
  run (get_top_match_results_by_job_description_id env j (Z.of_nat n)) d =
  (d, match top_rows j n d with
      | [] => inl (not_found "No match results found for the given job description ID.")
      | rows => inr (map (model_validate env) rows)
      end).
Proof.
  unfold get_top_match_results_by_job_description_id, query_limit.
  destruct (Z.ltb_spec (Z.of_nat n) 0) as [Hneg|_]; [lia|].
  rewrite Nat2Z.id. run_monad.
  destruct (top_rows j n d); reflexivity.
Qed.

Lemma get_top_match_results_by_job_description_id_negative env d j n :
  n < 0 ->
  run (get_top_match_results_by_job_description_id env j n) d =
  (d, if limit_refuses_negative env
      then inl (internal_error
                  "An error occurred while fetching top match results for the job description ID.")
      else match order_by_rank_asc (filter (of_job j) (match_results d)) with
           | [] => inl (not_found "No match results found for the given job description ID.")
           | rows => inr (map (model_validate env) rows)
           end).
Proof.
  intros Hneg.
  unfold get_top_match_results_by_job_description_id, query_limit.
  destruct (Z.ltb_spec n 0) as [_|Hge]; [|lia].
  destruct (limit_refuses_negative env); run_monad; [reflexivity|].
  destruct (order_by_rank_asc (filter (of_job j) (match_results d))); reflexivity.
Qed.

Lemma map_M_serialize_ranked env rows s :
  map_M (serialize_ranked env) rows s = (s, inr (map (ranked_profile env (db s)) rows)).
Proof.
  induction rows as [|r t IH]; simpl.
  - reflexivity.
  - unfold bind at 1. unfold serialize_ranked at 1. run_monad.
    rewrite IH. unfold ranked_profile at 2.
    destruct (find _ (consultant_profiles (db s)));
      destruct (MatchResult.matched_at r); reflexivity.
Qed.

Lemma get_top_3_matches_run env d j :
  run (get_top_3_matches env j) d = (d, inr (map (ranked_profile env d) (top_rows j 3 d))).
Proof.
  unfold get_top_3_matches. run_monad.
  rewrite map_M_serialize_ranked. reflexivity.
Qed.

Lemma find_has_id k l r : find (has_id k) l = Some r -> MatchResult.id r = k.
Proof.
  intros H. apply find_some in H. destruct H as [_ H].
  unfold has_id in H. lia.
Qed.

Lemma find_has_id_In k l :
  In k (map MatchResult.id l) -> exists r, find (has_id k) l = Some r.
Proof.
  induction l as [|x t IH]; simpl; intros H.
  - destruct H.
  - unfold has_id at 1. destruct (Z.eqb_spec (MatchResult.id x) k) as [E|N].
    + eauto.
    + destruct H as [H|H]; [contradiction|]. apply IH, H.
Qed.

Lemma delete_match_result_by_id_run d id :
  run (delete_match_result_by_id id) d =
  match find (has_id id) (match_results d) with
  | Some _ => (deleted id d, inr tt)
  | None => (d, inl (not_found "Match result not found."))
  end.
Proof.
  unfold delete_match_result_by_id. run_monad.
  destruct (find (has_id id) (match_results d)) as [r|] eqn:E; [|reflexivity].
  unfold db_delete. run_monad. rewrite (find_has_id _ _ _ E). reflexivity.
Qed.

Lemma update_match_result_by_id_run env d id p :
  run (update_match_result_by_id env id p) d =
  match find (has_id id) (match_results d) with
  | None => (d, inl (not_found "Match result not found."))
  | Some _ =>
      match dumped_id env p (Some id) with
      | None => (d, inl (internal_error "An error occurred while updating the match result."))
      | Some key =>
          if negb (key =? id) && existsb (has_id key) (match_results d)
          then (d, inl (internal_error "An error occurred while updating the match result."))
          else (overwritten id key p d, inr (model_validate env (from_payload key p)))
      end
  end.
Proof.
  unfold update_match_result_by_id. run_monad.
  destruct (find (has_id id) (match_results d)) as [r|] eqn:E; [|reflexivity].
  rewrite (find_has_id _ _ _ E).
  unfold overwrite_from_payload. run_monad.
  destruct (dumped_id env p (Some id)) as [key|]; [|reflexivity].
  simpl. destruct (negb (key =? id) && existsb (has_id key) (match_results d));
    reflexivity.
Qed.

Lemma for_each_add_matched_profile env j l s :
  for_each l (add_matched_profile env j) s =
  (mkState (fold_left (fun d im => with_matched_profile env j im d) l (db s)) (trace s),
   inr tt).
Proof.
  revert s. induction l as [|im t IH]; intros s; simpl.
  - destruct s; reflexivity.
  - unfold bind, add_matched_profile, update_db. rewrite IH. reflexivity.
Qed.

(** The outcome of [get_all_match_results], path by path. *)
Lemma get_all_match_results_run env d j :
  run (get_all_match_results env j) d =
  let jd := find (is_job j) (job_descriptions d) in
  let profiles := filter (not_unavailable env) (consultant_profiles d) in
  match run_agent_matching env (with_workflow_status j d) jd profiles with
  | (d2, inl _) => (d2, inl recompute_error)
  | (d2, inr None) => (d2, inl recompute_error)
  | (d2, inr (Some r)) =>
      match find (workflow_of_job j) (workflow_statuses d2) with
      | None => (d2, inl recompute_error)
      | Some w =>
          let d3 := with_matches env j (all_matches r)
                      (without_matches_of_job j (with_completed w d2)) in
          match jd with
          | None => (d3, inl recompute_error)
          | Some j0 =>
              (with_notification env j (JobDescription.requestor_email j0)
                 (WorkflowStatus.id w) (message r) d3,
               inr (serialized_matches (all_matches r)))
          end
      end
  end.
Proof.
  unfold get_all_match_results. run_monad.
  set (jd := find (is_job j) (job_descriptions d)).
  set (profiles := filter (not_unavailable env) (consultant_profiles d)).
  destruct (is_None jd || is_empty profiles); simpl;
    unfold add_workflow_status, call_run_agent_matching, update_db; simpl;
    destruct (run_agent_matching env (with_workflow_status j d) jd profiles)
      as [d2 [e|[r|]]]; simpl; try reflexivity.
  all: unfold requestor_email_of, call_send_email.
  all: destruct jd as [j0|]; simpl.
  all: try destruct (send_email env (JobDescription.requestor_email j0) "test" (message r));
    simpl.
  all: destruct (find (workflow_of_job j) (workflow_statuses d2)) as [w|]; simpl;
    try reflexivity.
  all: unfold update_db, delete_matches_of_job; simpl.
  all: destruct (is_empty (all_matches r)); simpl; unfold update_db; simpl.
  all: rewrite for_each_add_matched_profile; simpl.
  all: unfold add_notification, update_db; simpl; reflexivity.
Qed.

(** ** The rows a recompute writes *)

Lemma with_matches_rows env j l d :
  match_results (fold_left (fun d im => with_matched_profile env j im d) l d) =
  (match_results d ++ new_rows env j l (match_results d))%list.
Proof.
  revert d. induction l as [|im t IH]; intros d; simpl.
  - now rewrite app_nil_r.
  - rewrite IH. simpl. now rewrite <- app_assoc.
Qed.

Lemma with_matches_frame env j l d :
  let d' := fold_left (fun d im => with_matched_profile env j im d) l d in
  job_descriptions d' = job_descriptions d /\
  consultant_profiles d' = consultant_profiles d /\
  workflow_statuses d' = workflow_statuses d /\
  notifications d' = notifications d.
Proof.
  revert d. induction l as [|im t IH]; intros d; simpl.
  - auto.
  - destruct (IH (with_matched_profile env j im d)) as (A & B & C & D).
    simpl in *. auto.
Qed.

Lemma new_rows_entries env j l table :
  map stored_entry (new_rows env j l table) = map (computed_entry j) l.
Proof.
  revert table. induction l as [|im t IH]; intros table; simpl.
  - reflexivity.
  - now rewrite IH.
Qed.

Lemma new_rows_of_job env j l table :
  filter (of_job j) (new_rows env j l table) = new_rows env j l table.
Proof.
  revert table. induction l as [|im t IH]; intros table; simpl.
  - reflexivity.
  - unfold of_job at 1. simpl. rewrite Z.eqb_refl. now rewrite IH.
Qed.

Lemma filter_of_job_without j (l : list MatchResult.t) :
  filter (of_job j) (filter (fun m => negb (of_job j m)) l) = [].
Proof.
  induction l as [|x t IH]; simpl.
  - reflexivity.
  - destruct (of_job j x) eqn:E; simpl.
    + exact IH.
    + now rewrite E.
Qed.

Lemma recomputed_rows_of_job env j ms d :
  filter (of_job j) (match_results (with_matches env j ms (without_matches_of_job j d))) =
  new_rows env j (enumerate ms)
    (filter (fun m => negb (of_job j m)) (match_results d)).
Proof.
  unfold with_matches. rewrite with_matches_rows. simpl.
  rewrite filter_app, filter_of_job_without, new_rows_of_job. reflexivity.
Qed.

Lemma enumerate_from_ranks {A} (i : Z) (l : list A) :
  map (fun im => fst im + 1) (enumerate_from i l) =
  map (fun n => i + Z.of_nat n) (seq 1 (List.length l)).
Proof.
  revert i. induction l as [|x t IH]; intros i; simpl.
  - reflexivity.
  - f_equal; try lia.
    rewrite IH, <- (seq_shift (List.length t) 1), map_map.
    apply map_ext. intros n. lia.
Qed.

Lemma enumerate_ranks {A} (l : list A) :
  map (fun im => fst im + 1) (enumerate l) = one_to (List.length l).
Proof.
  unfold enumerate, one_to. rewrite enumerate_from_ranks.
  apply map_ext. intros n. lia.
Qed.

Lemma enumerate_from_snd {A} (i : Z) (l : list A) :
  map snd (enumerate_from i l) = l.
Proof.
  revert i. induction l as [|x t IH]; intros i; simpl; [reflexivity|].
  now rewrite IH.
Qed.

Lemma new_rows_ranks env j l table :
  map MatchResult.rank (new_rows env j l table) = map (fun im => fst im + 1) l.
Proof.
  revert table. induction l as [|im t IH]; intros table; simpl.
  - reflexivity.
  - now rewrite IH.
Qed.

Lemma serialized_matches_ranks ms :
  map sm_rank (serialized_matches ms) = one_to (List.length ms).
Proof.
  unfold serialized_matches. rewrite map_map. simpl. apply enumerate_ranks.
Qed.

Lemma serialized_matches_profiles ms :
  map sm_profile (serialized_matches ms) =
  map (fun m => profile_dict (Match.profile m)) ms.
Proof.
  unfold serialized_matches, enumerate. rewrite map_map. simpl.
  rewrite <- (enumerate_from_snd 0 ms) at 2. now rewrite map_map.
Qed.

Lemma nth_error_enumerate_from {A} (s : Z) (l : list A) (i : nat) (x : A) :
  nth_error l i = Some x ->
  nth_error (enumerate_from s l) i = Some (s + Z.of_nat i, x).
Proof.
  revert s i. induction l as [|y t IH]; intros s [|i] H; simpl in *;
    try discriminate.
  - injection H as ->. f_equal. f_equal. lia.
  - rewrite (IH (s + 1) i H). f_equal. f_equal. lia.
Qed.

Lemma nth_error_serialized_matches ms i m :
  nth_error ms i = Some m ->
  nth_error (serialized_matches ms) i = Some (serialize_match (Z.of_nat i) m).
Proof.
  intros H. unfold serialized_matches, enumerate.
  rewrite nth_error_map, (nth_error_enumerate_from 0 ms i m H). reflexivity.
Qed.

(** C1: after a successful run of [get_all_match_results] the matching
    routine did return a result, and, with [k] the length of its list of
    matches: the rows stored for the job are exactly the freshly computed
    ones, in the order of that list (no earlier row of the job is left);
    their ranks are 1, ..., k; and the returned list has [k] entries, the
    one at the place of a match giving that match's profile, field by
    field, its score, and its 1-based position as the rank. *)
Theorem recompute_replaces_matches env d j d' out :
  run (get_all_match_results env j) d = (d', inr out) ->
  exists d2 r,
    run_agent_matching env (with_workflow_status j d)
      (find (is_job j) (job_descriptions d))
      (filter (not_unavailable env) (consultant_profiles d)) = (d2, inr (Some r)) /\
    let stored := filter (of_job j) (match_results d') in
    let k := List.length (all_matches r) in
    map stored_entry stored = map (computed_entry j) (enumerate (all_matches r)) /\
    map MatchResult.rank stored = one_to k /\
    out = serialized_matches (all_matches r) /\
    map sm_rank out = one_to k /\
    map sm_profile out = map (fun m => profile_dict (Match.profile m)) (all_matches r) /\
    List.length out = k /\
    forall i m,
      nth_error (all_matches r) i = Some m ->
      nth_error out i =
        Some (mkSerializedMatch
                (mkProfileDict
                   (ConsultantProfile.id (Match.profile m))
                   (ConsultantProfile.name (Match.profile m))
                   (ConsultantProfile.skills (Match.profile m))
                   (ConsultantProfile.experience (Match.profile m))
                   (ConsultantProfile.location (Match.profile m))
                   (ConsultantProfile.availability (Match.profile m)))
                (Match.similarity_score m)
                (Z.of_nat i + 1)).
Proof.
  rewrite get_all_match_results_run. cbv zeta.
  destruct (run_agent_matching env (with_workflow_status j d) _ _)
    as [d2 [e|[r|]]]; try discriminate.
  destruct (find (workflow_of_job j) (workflow_statuses d2)) as [w|];
    try discriminate.
  destruct (find (is_job j) (job_descriptions d)) as [j0|]; try discriminate.
  intros H. injection H as Hd Hout. subst d' out.
  exists d2, r. split; [reflexivity|]. cbv zeta.
  assert (Hrows :
    filter (of_job j)
      (match_results
         (with_notification env j (JobDescription.requestor_email j0)
            (WorkflowStatus.id w) (message r)
            (with_matches env j (all_matches r)
               (without_matches_of_job j (with_completed w d2))))) =
    new_rows env j (enumerate (all_matches r))
      (filter (fun m => negb (of_job j m)) (match_results d2))).
  { change (match_results (with_notification env j _ _ _ ?x)) with (match_results x).
    rewrite recomputed_rows_of_job. reflexivity. }
  rewrite Hrows. repeat split.
  - apply new_rows_entries.
  - rewrite new_rows_ranks. apply enumerate_ranks.
  - apply serialized_matches_ranks.
  - apply serialized_matches_profiles.
  - rewrite <- (length_map sm_rank), serialized_matches_ranks.
    unfold one_to. now rewrite length_map, length_seq.
  - intros i m Hm. rewrite (nth_error_serialized_matches _ i m Hm). reflexivity.
Qed.

(** ** The log of a recompute *)

Ltac trace_monad :=
  unfold run_trace, try_except, bind, ret, raise, commit,
    logger_debug, logger_info, logger_warning, logger_error, print, emit,
    query_first, query_all, update_db, add_workflow_status,
    call_run_agent_matching, delete_matches_of_job, add_notification;
  simpl.

Ltac in_trace := simpl; repeat (rewrite in_app_iff; simpl); tauto.

Lemma recompute_prints_diagnostic env d j :
  is_None (find (is_job j) (job_descriptions d))
  || is_empty (filter (not_unavailable env) (consultant_profiles d)) = true ->
  In (Printed ("Job Descriptions or Profiles not found for Job ID: " ++ str_Z j))
     (run_trace (get_all_match_results env j) d).
Proof.
  intros H. unfold get_all_match_results. trace_monad. rewrite H. simpl.
  destruct (run_agent_matching env (with_workflow_status j d) _ _)
    as [d2 [e|[r|]]]; simpl; try in_trace.
  unfold requestor_email_of, call_send_email.
  destruct (find (is_job j) (job_descriptions d)) as [j0|]; simpl.
  1: destruct (send_email env (JobDescription.requestor_email j0) "test" (message r));
    simpl.
  all: destruct (find (workflow_of_job j) (workflow_statuses d2)) as [w|]; simpl;
    try in_trace.
  all: unfold update_db; simpl.
  all: destruct (is_empty (all_matches r)); simpl; unfold update_db; simpl.
  all: rewrite for_each_add_matched_profile; simpl; in_trace.
Qed.

Lemma recompute_logs_caught_not_found env d j d2 :
  run_agent_matching env (with_workflow_status j d)
    (find (is_job j) (job_descriptions d))
    (filter (not_unavailable env) (consultant_profiles d)) = (d2, inr None) ->
  In (Logged ERROR ("Error occurred while fetching match results: "
                    ++ str_exn (not_found "Workflow status not found.")))
     (run_trace (get_all_match_results env j) d).
Proof.
  intros H. unfold get_all_match_results. trace_monad.
  destruct (is_None _ || is_empty _); simpl; rewrite H; simpl; in_trace.
Qed.

Lemma recompute_logs_email_failure env d j j0 d2 r e :
  find (is_job j) (job_descriptions d) = Some j0 ->
  run_agent_matching env (with_workflow_status j d) (Some j0)
    (filter (not_unavailable env) (consultant_profiles d)) = (d2, inr (Some r)) ->
  send_email env (JobDescription.requestor_email j0) "test" (message r) = Some e ->
  In (Logged ERROR ("Error during send email notification agent " ++ str_exn e))
     (run_trace (get_all_match_results env j) d).
Proof.
  intros Hjd Hrun Hmail. unfold get_all_match_results. trace_monad.
  rewrite Hjd. simpl.
  destruct (is_empty _); simpl; rewrite Hrun; simpl;
    unfold call_send_email; rewrite Hmail; simpl.
  all: destruct (find (workflow_of_job j) (workflow_statuses d2)) as [w|]; simpl;
    try in_trace.
  all: unfold update_db; simpl.
  all: destruct (is_empty (all_matches r)); simpl; unfold update_db; simpl.
  all: rewrite for_each_add_matched_profile; simpl; in_trace.
Qed.

Lemma completed_is_first (j : Z) (w : WorkflowStatus.t) (l : list WorkflowStatus.t) :
  find (workflow_of_job j) l = Some w ->
  find (workflow_of_job j)
       (map (fun x => if WorkflowStatus.id x =? WorkflowStatus.id w
                      then WorkflowStatus.with_progress COMPLETED x else x) l) =
  Some (WorkflowStatus.with_progress COMPLETED w).
Proof.
  induction l as [|x t IH]; simpl; intros H.
  - discriminate.
  - destruct (workflow_of_job j x) eqn:E.
    + injection H as ->. rewrite Z.eqb_refl.
      unfold workflow_of_job in *. simpl. now rewrite E.
    + destruct (WorkflowStatus.id x =? WorkflowStatus.id w);
        unfold workflow_of_job in *; simpl; rewrite E; apply IH, H.
Qed.

(** C2: when the matching routine returns no result, the "not found"
    exception [get_all_match_results] raises is caught by its own
    [except Exception] handler (which logs it) and the caller receives the
    generic internal error, status 500, not a 404. *)
Theorem recompute_without_result_is_internal_error env d j d2 :
  run_agent_matching env (with_workflow_status j d)
    (find (is_job j) (job_descriptions d))
    (filter (not_unavailable env) (consultant_profiles d)) = (d2, inr None) ->
  run (get_all_match_results env j) d =
    (d2, inl (HTTPException 500 "An error occurred while fetching match results.")) /\
  In (Logged ERROR ("Error occurred while fetching match results: "
                    ++ str_exn (HTTPException 404 "Workflow status not found.")))
     (run_trace (get_all_match_results env j) d).
Proof.
  intros H. split.
  - rewrite get_all_match_results_run. cbv zeta. rewrite H. reflexivity.
  - apply (recompute_logs_caught_not_found env d j d2 H).
Qed.

(** C7: for a job identifier with no job description, [get_all_match_results]
    prints its diagnostic and goes on, but never completes: whatever the
    matching routine does, the caller receives the internal error, status
    500. *)
Theorem recompute_of_absent_job_fails env d j :
  find (is_job j) (job_descriptions d) = None ->
  In (Printed ("Job Descriptions or Profiles not found for Job ID: " ++ str_Z j))
     (run_trace (get_all_match_results env j) d) /\
  exists d',
    run (get_all_match_results env j) d =
    (d', inl (HTTPException 500 "An error occurred while fetching match results.")).
Proof.
  intros H. split.
  - apply recompute_prints_diagnostic. now rewrite H.
  - rewrite get_all_match_results_run. cbv zeta. rewrite H.
    destruct (run_agent_matching env (with_workflow_status j d) None _)
      as [d2 [e|[r|]]]; try (eexists; reflexivity).
    destruct (find (workflow_of_job j) (workflow_statuses d2));
      eexists; reflexivity.
Qed.

(** An empty pool of consultants, with the job description present, is
    reported and does not stop the run. *)
Lemma recompute_with_empty_pool env d j j0 d2 r w :
  find (is_job j) (job_descriptions d) = Some j0 ->
  filter (not_unavailable env) (consultant_profiles d) = [] ->
  run_agent_matching env (with_workflow_status j d) (Some j0) [] = (d2, inr (Some r)) ->
  find (workflow_of_job j) (workflow_statuses d2) = Some w ->
  In (Printed ("Job Descriptions or Profiles not found for Job ID: " ++ str_Z j))
     (run_trace (get_all_match_results env j) d) /\
  exists d',
    run (get_all_match_results env j) d = (d', inr (serialized_matches (all_matches r))).
Proof.
  intros Hjd Hpool Hrun Hw. split.
  - apply recompute_prints_diagnostic. rewrite Hpool. apply orb_true_r.
  - rewrite get_all_match_results_run. cbv zeta.
    rewrite Hjd, Hpool, Hrun, Hw. eexists; reflexivity.
Qed.

(** The outcome of a recompute does not depend on the mail sender. *)
Lemma recompute_ignores_send_email env f d j :
  run (get_all_match_results (with_send_email f env) j) d =
  run (get_all_match_results env j) d.
Proof.
  rewrite !get_all_match_results_run. reflexivity.
Qed.

(** C8: when [send_email] raises, [get_all_match_results] ends as it would
    with a mail sender that returns: same store, same value or error.  In
    particular, when the job description exists, the matching routine
    returns a result and a workflow-status row of the job is there, the
    failure is logged, the run returns the serialized matches, that row is
    COMPLETED and the job's matches are the fresh ones. *)
Theorem email_failure_is_swallowed env d j e :
  (forall recipient subject body, send_email env recipient subject body = Some e) ->
  run (get_all_match_results env j) d =
    run (get_all_match_results (with_send_email (fun _ _ _ => None) env) j) d /\
  forall j0 d2 r w,
    find (is_job j) (job_descriptions d) = Some j0 ->
    run_agent_matching env (with_workflow_status j d) (Some j0)
      (filter (not_unavailable env) (consultant_profiles d)) = (d2, inr (Some r)) ->
    find (workflow_of_job j) (workflow_statuses d2) = Some w ->
    In (Logged ERROR ("Error during send email notification agent " ++ str_exn e))
       (run_trace (get_all_match_results env j) d) /\
    exists d',
      run (get_all_match_results env j) d =
        (d', inr (serialized_matches (all_matches r))) /\
      find (workflow_of_job j) (workflow_statuses d') =
        Some (WorkflowStatus.with_progress COMPLETED w) /\
      map stored_entry (filter (of_job j) (match_results d')) =
        map (computed_entry j) (enumerate (all_matches r)).
Proof.
  intros Hmail. split.
  - symmetry. apply recompute_ignores_send_email.
  - intros j0 d2 r w Hjd Hrun Hw. split.
    + apply (recompute_logs_email_failure env d j j0 d2 r e Hjd Hrun (Hmail _ _ _)).
    + rewrite get_all_match_results_run. cbv zeta. rewrite Hjd, Hrun, Hw.
      eexists. split; [reflexivity|]. split.
      * change (workflow_statuses (with_notification env j _ _ _ ?x))
          with (workflow_statuses x).
        unfold with_matches.
        destruct (with_matches_frame env j (enumerate (all_matches r))
                    (without_matches_of_job j (with_completed w d2)))
          as (_ & _ & -> & _).
        simpl. apply completed_is_first, Hw.
      * change (match_results (with_notification env j _ _ _ ?x))
          with (match_results x).
        rewrite recomputed_rows_of_job. apply new_rows_entries.
Qed.

(** ** Top-n *)

Lemma model_validate_sorted env l :
  StronglySorted rank_le l ->
  StronglySorted schema_rank_le (map (model_validate env) l).
Proof.
  induction 1 as [|x t Hs IH Hx]; simpl; constructor.
  - exact IH.
  - rewrite Forall_forall in Hx |- *. intros y Hy.
    apply in_map_iff in Hy. destruct Hy as (z & <- & Hz).
    apply (Hx z Hz).
Qed.

Lemma top_rows_nil j n d :
  top_rows j n d = [] -> n = 0%nat \/ filter (of_job j) (match_results d) = [].
Proof.
  unfold top_rows. intros H.
  destruct n as [|n]; [now left | right].
  pose proof (order_by_rank_asc_perm (filter (of_job j) (match_results d))) as P.
  destruct (order_by_rank_asc (filter (of_job j) (match_results d))) as [|x t].
  - apply Permutation_sym, Permutation_nil in P. exact P.
  - discriminate.
Qed.

(** C3, as the code has it: for a count [n] that is not negative,
    [get_top_match_results_by_job_description_id] leaves the store as it is
    and either returns rows or reports "not found".  The rows it returns are
    at most [n], in ascending order of rank, and together with the rows it
    leaves out they are the rows of the job, none of those left out ranking
    before a returned one.  "Not found" is reported only when [n] is 0 or
    the job has no row. *)
Theorem top_n_is_a_ranked_prefix env d j n :
  0 <= n ->
  exists r,
    run (get_top_match_results_by_job_description_id env j n) d = (d, r) /\
    match r with
    | inr out =>
        Z.of_nat (List.length out) <= n /\
        StronglySorted schema_rank_le out /\
        exists excluded,
          Permutation (map (model_validate env) (filter (of_job j) (match_results d)))
                      (out ++ excluded) /\
          forall o x, In o out -> In x excluded -> schema_rank_le o x
    | inl e =>
        e = HTTPException 404 "No match results found for the given job description ID." /\
        (n = 0 \/ filter (of_job j) (match_results d) = [])
    end.
Proof.
  intros Hn. rewrite <- (Z2Nat.id n Hn).
  rewrite get_top_match_results_by_job_description_id_run.
  set (k := Z.to_nat n).
  eexists. split; [reflexivity|].
  destruct (top_rows_split j k d) as (Hperm & Hsorted & Hcross & Hlen).
  destruct (top_rows j k d) as [|x t] eqn:E.
  - split; [reflexivity|].
    destruct (top_rows_nil j k d E) as [H0|Hnil]; [left; lia | right; exact Hnil].
  - rewrite <- E in *. clear E. repeat split.
    + rewrite length_map. lia.
    + apply model_validate_sorted, Hsorted.
    + exists (map (model_validate env)
                (skipn k (order_by_rank_asc (filter (of_job j) (match_results d))))).
      split.
      * rewrite <- map_app. apply Permutation_map, Hperm.
      * intros o y Ho Hy.
        apply in_map_iff in Ho. destruct Ho as (a & <- & Ha).
        apply in_map_iff in Hy. destruct Hy as (b & <- & Hb).
        apply (Hcross a b Ha Hb).
Qed.

(** C4: for a job with no stored row, the generic top-n function reports
    "not found" (404) whatever the count [n] is, but [get_top_3_matches]
    returns the empty list. *)
Theorem top_3_of_a_job_without_rows_is_empty env d j :
  filter (of_job j) (match_results d) = [] ->
  run (get_top_3_matches env j) d = (d, inr []) /\
  forall n : nat,
    run (get_top_match_results_by_job_description_id env j (Z.of_nat n)) d =
    (d, inl (HTTPException 404 "No match results found for the given job description ID.")).
Proof.
  intros H.
  assert (Hnil : forall n, top_rows j n d = []).
  { intros n. unfold top_rows. rewrite H. simpl. apply firstn_nil. }
  split.
  - rewrite get_top_3_matches_run, Hnil. reflexivity.
  - intros n. rewrite get_top_match_results_by_job_description_id_run, Hnil.
    reflexivity.
Qed.

(** C10: a row among the top three whose consultant has no profile in the
    store still gets its entry, at its place in the returned list, with
    [None] for the profile and its own score, rank and timestamp. *)
Theorem top_3_keeps_rows_without_profile env d j i row :
  nth_error (top_rows j 3 d) i = Some row ->
  find (fun c => ConsultantProfile.id c =? MatchResult.consultant_id row)
       (consultant_profiles d) = None ->
  exists out,
    run (get_top_3_matches env j) d = (d, inr out) /\
    List.length out = List.length (top_rows j 3 d) /\
    nth_error out i =
      Some (mkRankedProfile None
              (MatchResult.similarity_score row)
              (MatchResult.rank row)
              (option_map (isoformat env) (MatchResult.matched_at row))).
Proof.
  intros Hrow Hnone. rewrite get_top_3_matches_run.
  eexists. split; [reflexivity|]. split.
  - apply length_map.
  - rewrite nth_error_map, Hrow. simpl.
    unfold ranked_profile. rewrite Hnone. reflexivity.
Qed.

(** C9: the four read operations hand the store back as they found it. *)
Theorem reads_leave_the_store_unchanged env d id j n :
  fst (run (get_match_result_by_id env id) d) = d /\
  fst (run (get_match_results_by_job_description_id env j) d) = d /\
  fst (run (get_top_3_matches env j) d) = d /\
  fst (run (get_top_match_results_by_job_description_id env j n) d) = d.
Proof.
  rewrite get_match_result_by_id_run, get_match_results_by_job_description_id_run,
    get_top_3_matches_run.
  repeat split.
  destruct (Z.ltb_spec n 0) as [Hneg|Hge].
  - now rewrite get_top_match_results_by_job_description_id_negative.
  - rewrite <- (Z2Nat.id n Hge).
    now rewrite get_top_match_results_by_job_description_id_run.
Qed.

(** ** Update and delete, then fetch *)

Lemma find_overwritten id row (l : list MatchResult.t) r :
  find (has_id id) l = Some r ->
  MatchResult.id row = id ->
  find (has_id id) (map (fun m => if has_id id m then row else m) l) = Some row.
Proof.
  intros H Hrow. induction l as [|x t IH]; simpl in *.
  - discriminate.
  - destruct (has_id id x) eqn:E.
    + unfold has_id at 1. rewrite Hrow, Z.eqb_refl. reflexivity.
    + rewrite E. apply IH, H.
Qed.

Lemma find_deleted id (l : list MatchResult.t) :
  find (has_id id) (filter (fun m => negb (has_id id m)) l) = None.
Proof.
  induction l as [|x t IH]; simpl.
  - reflexivity.
  - destruct (has_id id x) eqn:E; simpl.
    + exact IH.
    + now rewrite E.
Qed.

Lemma model_validate_from_payload env id p :
  MatchResultSchema.id p = (if schema_has_id env then Some id else None) ->
  model_validate env (from_payload id p) = p.
Proof.
  intros H. destruct p as [k a b c e f]. simpl in H. subst k.
  unfold model_validate, from_payload. simpl. reflexivity.
Qed.

(** C5, as the code has it: for a stored [id] and a payload that leaves the
    key alone (the schema has no [id] field, or the payload's [id] is [id]),
    the update succeeds and returns the payload, and a fetch of [id] then
    returns the payload, every field of it. *)
Theorem update_then_get_returns_payload env d id p :
  In id (map MatchResult.id (match_results d)) ->
  MatchResultSchema.id p = (if schema_has_id env then Some id else None) ->
  snd (run (update_match_result_by_id env id p) d) = inr p /\
  fetch_after_update env d id p = inr p.
Proof.
  intros Hin Hkey. unfold fetch_after_update.
  rewrite update_match_result_by_id_run.
  destruct (find_has_id_In id _ Hin) as [r Hr]. rewrite Hr.
  assert (Hd : dumped_id env p (Some id) = Some id).
  { unfold dumped_id. rewrite Hkey. destruct (schema_has_id env); reflexivity. }
  rewrite Hd, Z.eqb_refl. simpl.
  rewrite get_match_result_by_id_run. simpl.
  rewrite (find_overwritten id (from_payload id p) _ r Hr eq_refl).
  rewrite (model_validate_from_payload env id p Hkey). split; reflexivity.
Qed.

(** C6: for a stored [id], the delete succeeds and a fetch of [id] then
    reports "not found", status 404. *)
Theorem delete_then_get_is_not_found env d id :
  In id (map MatchResult.id (match_results d)) ->
  snd (run (delete_match_result_by_id id) d) = inr tt /\
  fetch_after_delete env d id = inl (HTTPException 404 "Match result not found.").
Proof.
  intros Hin. unfold fetch_after_delete.
  rewrite delete_match_result_by_id_run.
  destruct (find_has_id_In id _ Hin) as [r Hr]. rewrite Hr. simpl.
  rewrite get_match_result_by_id_run. simpl.
  rewrite find_deleted. split; reflexivity.
Qed.

(** ** Concrete runs *)

Lemma recompute_replaces_matches_witness :
  exists d2 r,
    run_agent_matching (sample_env (Some sample_result) None true)
      (with_workflow_status 1 sample_db)
      (find (is_job 1) (job_descriptions sample_db))
      (filter (not_unavailable (sample_env (Some sample_result) None true))
              (consultant_profiles sample_db)) = (d2, inr (Some r)) /\
    let stored :=
      filter (of_job 1)
        (match_results
           (fst (run (get_all_match_results (sample_env (Some sample_result) None true) 1)
                     sample_db))) in
    let k := List.length (all_matches r) in
    map stored_entry stored = map (computed_entry 1) (enumerate (all_matches r)) /\
    map MatchResult.rank stored = one_to k /\
    serialized_matches (all_matches sample_result) = serialized_matches (all_matches r) /\
    map sm_rank (serialized_matches (all_matches sample_result)) = one_to k /\
    map sm_profile (serialized_matches (all_matches sample_result)) =
      map (fun m => profile_dict (Match.profile m)) (all_matches r) /\
    List.length (serialized_matches (all_matches sample_result)) = k /\
    forall i m,
      nth_error (all_matches r) i = Some m ->
      nth_error (serialized_matches (all_matches sample_result)) i =
        Some (mkSerializedMatch
                (mkProfileDict
                   (ConsultantProfile.id (Match.profile m))
                   (ConsultantProfile.name (Match.profile m))
                   (ConsultantProfile.skills (Match.profile m))
                   (ConsultantProfile.experience (Match.profile m))
                   (ConsultantProfile.location (Match.profile m))
                   (ConsultantProfile.availability (Match.profile m)))
                (Match.similarity_score m)
                (Z.of_nat i + 1)).
Proof.
  apply (recompute_replaces_matches (sample_env (Some sample_result) None true)
           sample_db 1).
  vm_compute. reflexivity.
Defined.

Lemma recompute_without_result_is_internal_error_witness :
  run (get_all_match_results (sample_env None None true) 1) sample_db =
    (with_workflow_status 1 sample_db,
     inl (HTTPException 500 "An error occurred while fetching match results.")) /\
  In (Logged ERROR ("Error occurred while fetching match results: "
                    ++ str_exn (HTTPException 404 "Workflow status not found.")))
     (run_trace (get_all_match_results (sample_env None None true) 1) sample_db).
Proof.
  apply (recompute_without_result_is_internal_error (sample_env None None true)
           sample_db 1 (with_workflow_status 1 sample_db)).
  reflexivity.
Defined.

Lemma recompute_of_absent_job_fails_witness :
  In (Printed ("Job Descriptions or Profiles not found for Job ID: " ++ str_Z 1))
     (run_trace (get_all_match_results (sample_env (Some sample_result) None true) 1)
                sample_db_without_job) /\
  exists d',
    run (get_all_match_results (sample_env (Some sample_result) None true) 1)
        sample_db_without_job =
    (d', inl (HTTPException 500 "An error occurred while fetching match results.")).
Proof.
  apply (recompute_of_absent_job_fails (sample_env (Some sample_result) None true)
           sample_db_without_job 1).
  reflexivity.
Defined.

Lemma top_n_is_a_ranked_prefix_witness :
  exists r,
    run (get_top_match_results_by_job_description_id
           (sample_env None None true) 1 1) sample_db = (sample_db, r) /\
    match r with
    | inr out =>
        Z.of_nat (List.length out) <= 1 /\
        StronglySorted schema_rank_le out /\
        exists excluded,
          Permutation
            (map (model_validate (sample_env None None true))
                 (filter (of_job 1) (match_results sample_db)))
            (out ++ excluded) /\
          forall o x, In o out -> In x excluded -> schema_rank_le o x
    | inl e =>
        e = HTTPException 404 "No match results found for the given job description ID." /\
        (1 = 0 \/ filter (of_job 1) (match_results sample_db) = [])
    end.
Proof.
  apply (top_n_is_a_ranked_prefix (sample_env None None true) sample_db 1 1).
  lia.
Defined.

(** C3 as stated fails for a negative count on a database that reads a
    negative [LIMIT] as no limit: with [n = -1] the two rows of job 1 are
    returned, which is more than [n]. *)
Lemma top_n_counterexample :
  exists out,
    snd (run (get_top_match_results_by_job_description_id
                (sample_env None None true) 1 (-1)) sample_db) = inr out /\
    List.length out = 2%nat /\
    ~ (Z.of_nat (List.length out) <= -1).
Proof.
  eexists. split; [vm_compute; reflexivity|]. split; [reflexivity|].
  simpl. lia.
Qed.

Lemma top_3_of_a_job_without_rows_is_empty_witness :
  run (get_top_3_matches (sample_env None None true) 9) sample_db = (sample_db, inr []) /\
  forall n : nat,
    run (get_top_match_results_by_job_description_id
           (sample_env None None true) 9 (Z.of_nat n)) sample_db =
    (sample_db,
     inl (HTTPException 404 "No match results found for the given job description ID.")).
Proof.
  apply (top_3_of_a_job_without_rows_is_empty (sample_env None None true) sample_db 9).
  reflexivity.
Defined.

Lemma update_then_get_returns_payload_witness :
  snd (run (update_match_result_by_id (sample_env None None true) 5
              (sample_payload (Some 5))) sample_db) = inr (sample_payload (Some 5)) /\
  fetch_after_update (sample_env None None true) sample_db 5 (sample_payload (Some 5)) =
    inr (sample_payload (Some 5)).
Proof.
  apply (update_then_get_returns_payload (sample_env None None true) sample_db 5
           (sample_payload (Some 5))).
  - simpl. tauto.
  - reflexivity.
Defined.

(** C5 as stated fails where the payload carries another key: row 5 is
    stored, the update with a payload whose [id] is 8 succeeds and returns
    the payload, and the fetch of 5 then reports "not found". *)
Lemma update_then_get_counterexample :
  In 5 (map MatchResult.id (match_results sample_db)) /\
  snd (run (update_match_result_by_id (sample_env None None true) 5
              (sample_payload (Some 8))) sample_db) = inr (sample_payload (Some 8)) /\
  fetch_after_update (sample_env None None true) sample_db 5 (sample_payload (Some 8)) <>
    inr (sample_payload (Some 8)) /\
  fetch_after_update (sample_env None None true) sample_db 5 (sample_payload (Some 8)) =
    inl (HTTPException 404 "Match result not found.").
Proof.
  split; [simpl; tauto|]. split; [vm_compute; reflexivity|].
  assert (H : fetch_after_update (sample_env None None true) sample_db 5
                (sample_payload (Some 8)) =
              inl (HTTPException 404 "Match result not found."))
    by (vm_compute; reflexivity).
  split; [rewrite H; discriminate | exact H].
Qed.

Lemma delete_then_get_is_not_found_witness :
  snd (run (delete_match_result_by_id 5) sample_db) = inr tt /\
  fetch_after_delete (sample_env None None true) sample_db 5 =
    inl (HTTPException 404 "Match result not found.").
Proof.
  apply (delete_then_get_is_not_found (sample_env None None true) sample_db 5).
  simpl. tauto.
Defined.

Lemma top_3_keeps_rows_without_profile_witness :
  exists out,
    run (get_top_3_matches (sample_env None None true) 1) sample_db =
      (sample_db, inr out) /\
    List.length out = List.length (top_rows 1 3 sample_db) /\
    nth_error out 0 =
      Some (mkRankedProfile None 80 1 (option_map str_Z (Some 1600000000))).
Proof.
  apply (top_3_keeps_rows_without_profile (sample_env None None true) sample_db 1 0%nat
           (MatchResult.mk 7 1 99 80 1 (Some 1600000000))).
  - reflexivity.
  - reflexivity.
Defined.

Lemma email_failure_is_swallowed_witness :
  run (get_all_match_results mail_down_env 1) sample_db =
    run (get_all_match_results (with_send_email (fun _ _ _ => None) mail_down_env) 1) sample_db /\
  In (Logged ERROR ("Error during send email notification agent " ++ str_exn smtp_down))
     (run_trace (get_all_match_results mail_down_env 1) sample_db) /\
  exists d',
    run (get_all_match_results mail_down_env 1) sample_db =
      (d', inr (serialized_matches (all_matches sample_result))) /\
    find (workflow_of_job 1) (workflow_statuses d') =
      Some (WorkflowStatus.mk 1 1 [("jd_parsed", true); ("profiles_compared", false)]
              COMPLETED) /\
    map stored_entry (filter (of_job 1) (match_results d')) =
      map (computed_entry 1) (enumerate (all_matches sample_result)).
Proof.
  destruct (email_failure_is_swallowed mail_down_env sample_db 1 smtp_down
              (fun _ _ _ => eq_refl)) as [Hsame Hruns].
  split; [exact Hsame|].
  exact (Hruns (JobDescription.mk 1 "requestor@example.org")
               (with_workflow_status 1 sample_db)
               sample_result
               (WorkflowStatus.mk 1 1 [("jd_parsed", true); ("profiles_compared", false)]
                  PROCESSING)
               eq_refl eq_refl eq_refl).
Defined.

(** * Further properties of the repository *)

(** ** Fetching *)

Lemma find_has_id_absent k (l : list MatchResult.t) :
  ~ In k (map MatchResult.id l) -> find (has_id k) l = None.
Proof.
  intros H. destruct (find (has_id k) l) as [r|] eqn:E; [|reflexivity].
  exfalso. apply H. apply find_some in E. destruct E as [Hin Hk].
  apply in_map_iff. exists r. split; [|exact Hin].
  unfold has_id in Hk. lia.
Qed.

(** X1: [get_match_result_by_id] returns the record of a stored row whose
    key is [id], and reports "not found" (404) exactly when no stored row
    has that key. *)
Theorem fetch_finds_a_row_or_404 env d id :
  match fetch env d id with
  | inr r =>
      exists row, In row (match_results d) /\ MatchResult.id row = id /\
                  r = model_validate env row
  | inl e =>
      e = HTTPException 404 "Match result not found." /\
      ~ In id (map MatchResult.id (match_results d))
  end.
Proof.
  unfold fetch. rewrite get_match_result_by_id_run. simpl.
  destruct (find (has_id id) (match_results d)) as [row|] eqn:E.
  - exists row. split; [|split].
    + apply (find_some _ _ E).
    + apply (find_has_id _ _ _ E).
    + reflexivity.
  - split; [reflexivity|]. intros Hin.
    destruct (find_has_id_In id _ Hin) as [r Hr]. congruence.
Qed.

(** X2: [get_match_results_by_job_description_id] returns the records of
    exactly the stored rows of the job, in storage order: every record it
    returns is of that job and every stored row of the job is returned.  It
    reports "not found" (404) exactly when the job has no row. *)
Theorem listing_is_exactly_the_job env d j :
  match listing env d j with
  | inr out =>
      out <> [] /\
      out = map (model_validate env) (filter (of_job j) (match_results d)) /\
      Forall (fun r => MatchResultSchema.job_description_id r = j) out /\
      forall row, In row (match_results d) ->
                  MatchResult.job_description_id row = j ->
                  In (model_validate env row) out
  | inl e =>
      e = HTTPException 404 "No match results found for the given job description ID." /\
      forall row, In row (match_results d) ->
                  MatchResult.job_description_id row <> j
  end.
Proof.
  unfold listing. rewrite get_match_results_by_job_description_id_run. simpl.
  destruct (filter (of_job j) (match_results d)) as [|x t] eqn:E.
  - split; [reflexivity|]. intros row Hin Hj.
    assert (Hf : In row (filter (of_job j) (match_results d))).
    { apply filter_In. split; [exact Hin|]. unfold of_job. lia. }
    rewrite E in Hf. destruct Hf.
  - change (model_validate env x :: map (model_validate env) t)
      with (map (model_validate env) (x :: t)).
    rewrite <- E. repeat split.
    + rewrite E. discriminate.
    + rewrite Forall_forall. intros r Hr.
      apply in_map_iff in Hr. destruct Hr as (row & <- & Hrow).
      apply filter_In in Hrow. destruct Hrow as [_ Hj].
      unfold of_job in Hj. simpl. lia.
    + intros row Hin Hj. apply in_map, filter_In.
      split; [exact Hin|]. unfold of_job. lia.
Qed.

(** ** Update and delete: what they leave alone *)

(** X3: for an [id] that no stored row has, [update_match_result_by_id] and
    [delete_match_result_by_id] both report "not found" (404) and leave the
    store as it is. *)
Theorem update_and_delete_of_absent_id env d id p :
  ~ In id (map MatchResult.id (match_results d)) ->
  run (update_match_result_by_id env id p) d =
    (d, inl (HTTPException 404 "Match result not found.")) /\
  run (delete_match_result_by_id id) d =
    (d, inl (HTTPException 404 "Match result not found.")).
Proof.
  intros H. rewrite update_match_result_by_id_run, delete_match_result_by_id_run.
  rewrite (find_has_id_absent _ _ H). split; reflexivity.
Qed.

Lemma find_other_after_delete id id' (l : list MatchResult.t) :
  id' <> id ->
  find (has_id id') (filter (fun m => negb (has_id id m)) l) = find (has_id id') l.
Proof.
  intros Hne. induction l as [|x t IH]; simpl; [reflexivity|].
  destruct (has_id id x) eqn:E; simpl.
  - assert (has_id id' x = false) as ->; [|exact IH].
    unfold has_id in *. lia.
  - now rewrite IH.
Qed.

Lemma find_other_after_overwrite id id' row (l : list MatchResult.t) :
  id' <> id -> MatchResult.id row = id ->
  find (has_id id') (map (fun m => if has_id id m then row else m) l) =
  find (has_id id') l.
Proof.
  intros Hne Hrow. induction l as [|x t IH]; simpl; [reflexivity|].
  destruct (has_id id x) eqn:E.
  - assert (has_id id' row = false) as -> by (unfold has_id; lia).
    assert (has_id id' x = false) as -> by (unfold has_id in *; lia).
    exact IH.
  - now rewrite IH.
Qed.

(** X4: deleting [id] does not touch what a fetch of another key returns,
    and a second delete of [id] reports "not found" (404). *)
Theorem delete_leaves_other_rows env d id id' :
  id' <> id ->
  fetch env (fst (run (delete_match_result_by_id id) d)) id' = fetch env d id' /\
  snd (run (delete_match_result_by_id id)
           (fst (run (delete_match_result_by_id id) d))) =
    inl (HTTPException 404 "Match result not found.").
Proof.
  intros Hne. unfold fetch. rewrite delete_match_result_by_id_run.
  destruct (find (has_id id) (match_results d)) as [r|] eqn:E; simpl.
  - rewrite !get_match_result_by_id_run, delete_match_result_by_id_run. simpl.
    rewrite find_other_after_delete by exact Hne.
    rewrite find_deleted. split; reflexivity.
  - rewrite delete_match_result_by_id_run, E. split; reflexivity.
Qed.

(** X5: an update of [id] with a payload that leaves the key alone does not
    touch what a fetch of another key returns, and the table keeps its
    number of rows. *)
Theorem update_leaves_other_rows env d id id' p :
  id' <> id ->
  MatchResultSchema.id p = (if schema_has_id env then Some id else None) ->
  let d' := fst (run (update_match_result_by_id env id p) d) in
  fetch env d' id' = fetch env d id' /\
  List.length (match_results d') = List.length (match_results d).
Proof.
  intros Hne Hkey. cbv zeta. unfold fetch.
  rewrite update_match_result_by_id_run.
  destruct (find (has_id id) (match_results d)) as [r|] eqn:E;
    [|split; reflexivity].
  assert (Hd : dumped_id env p (Some id) = Some id).
  { unfold dumped_id. rewrite Hkey. destruct (schema_has_id env); reflexivity. }
  rewrite Hd, Z.eqb_refl. simpl.
  rewrite !get_match_result_by_id_run. simpl.
  rewrite (find_other_after_overwrite id id' (from_payload id p) _ Hne eq_refl).
  split; [reflexivity | apply length_map].
Qed.

(** ** Adding a row *)

Lemma next_id_above (ids : list Z) k : In k ids -> k < next_id ids.
Proof.
  unfold next_id. induction ids as [|x t IH]; simpl; intros H.
  - destruct H.
  - destruct H as [->|H]; [lia|]. specialize (IH H). lia.
Qed.

Lemma next_id_fresh (l : list MatchResult.t) :
  find (has_id (next_id (map MatchResult.id l))) l = None.
Proof.
  apply find_has_id_absent. intros H. apply next_id_above in H. lia.
Qed.

Lemma find_app_l {A} (f : A -> bool) (l1 l2 : list A) :
  find f (l1 ++ l2) = match find f l1 with Some x => Some x | None => find f l2 end.
Proof.
  induction l1 as [|x t IH]; simpl; [reflexivity|].
  destruct (f x); [reflexivity | exact IH].
Qed.

Lemma add_match_result_run env d p :
  MatchResultSchema.id p = None ->
  run (add_match_result env p) d =
  let row :=
    inserted_from_payload env (next_id (map MatchResult.id (match_results d))) p in
  (set_match_results (match_results d ++ [row]) d, inr (model_validate env row)).
Proof.
  intros H. unfold add_match_result, insert_from_payload. run_monad.
  assert (Hd : dumped_id env p None = None).
  { unfold dumped_id. rewrite H. destruct (schema_has_id env); reflexivity. }
  rewrite Hd. reflexivity.
Qed.

(** X6: [add_match_result] with a payload that names no key succeeds and
    returns a record with the payload's job, consultant, score and rank, and
    with the payload's [matched_at] or, when the payload has none, the
    column default; the listing of the payload's job is then the earlier
    listing followed by that record, and what a fetch of any key already in
    the store returns is unchanged. *)
Theorem add_appends_to_the_listing env d p :
  MatchResultSchema.id p = None ->
  exists d' r,
    run (add_match_result env p) d = (d', inr r) /\
    same_fields env p r /\
    listing env d' (MatchResultSchema.job_description_id p) =
      inr (map (model_validate env)
               (filter (of_job (MatchResultSchema.job_description_id p))
                       (match_results d)) ++ [r])%list /\
    forall k, In k (map MatchResult.id (match_results d)) ->
              fetch env d' k = fetch env d k.
Proof.
  intros H. rewrite (add_match_result_run env d p H). cbv zeta.
  eexists. eexists. split; [reflexivity|]. split; [|split].
  - split; reflexivity.
  - unfold listing. rewrite get_match_results_by_job_description_id_run. simpl.
    rewrite filter_app. simpl. unfold of_job at 2. simpl. rewrite Z.eqb_refl.
    destruct (filter _ (match_results d)); simpl; rewrite ?map_app; reflexivity.
  - intros k Hk. unfold fetch. rewrite !get_match_result_by_id_run. simpl.
    destruct (find_has_id_In k _ Hk) as [r Hr].
    rewrite find_app_l, Hr. reflexivity.
Qed.

(** X7: when the schema declares [id], the record [add_match_result]
    returns for a payload without a key carries the key the store assigned,
    that key was in use by no row before, and a fetch of it returns the same
    record. *)
Theorem add_then_get_returns_the_record env d p :
  schema_has_id env = true ->
  MatchResultSchema.id p = None ->
  exists d' r k,
    run (add_match_result env p) d = (d', inr r) /\
    MatchResultSchema.id r = Some k /\
    ~ In k (map MatchResult.id (match_results d)) /\
    fetch env d' k = inr r.
Proof.
  intros Hs H. rewrite (add_match_result_run env d p H). cbv zeta.
  eexists. eexists. exists (next_id (map MatchResult.id (match_results d))).
  split; [reflexivity|]. split; [|split].
  - unfold model_validate. rewrite Hs. reflexivity.
  - intros Hin. apply next_id_above in Hin. lia.
  - unfold fetch. rewrite get_match_result_by_id_run. simpl.
    rewrite find_app_l, next_id_fresh. simpl.
    unfold has_id. simpl. rewrite Z.eqb_refl. reflexivity.
Qed.

(** ** More on the recompute *)

Lemma recompute_success env d j d' out :
  run (get_all_match_results env j) d = (d', inr out) ->
  exists j0 r w,
    find (is_job j) (job_descriptions d) = Some j0 /\
    matching_answer env j d = inr (Some r) /\
    find (workflow_of_job j) (workflow_statuses (after_matching env j d)) = Some w /\
    d' = with_notification env j (JobDescription.requestor_email j0)
           (WorkflowStatus.id w) (message r)
           (with_matches env j (all_matches r)
              (without_matches_of_job j (with_completed w (after_matching env j d)))) /\
    out = serialized_matches (all_matches r).
Proof.
  rewrite get_all_match_results_run. cbv zeta.
  unfold after_matching, matching_answer.
  destruct (run_agent_matching env (with_workflow_status j d) _ _)
    as [d2 [e|[r|]]]; try discriminate.
  simpl.
  destruct (find (workflow_of_job j) (workflow_statuses d2)) as [w|];
    try discriminate.
  destruct (find (is_job j) (job_descriptions d)) as [j0|]; try discriminate.
  intros H. injection H as <- <-.
  exists j0, r, w. repeat split.
Qed.

Lemma recomputed_rows env j ms d :
  match_results (with_matches env j ms (without_matches_of_job j d)) =
  (filter (fun m => negb (of_job j m)) (match_results d) ++
   new_rows env j (enumerate ms)
     (filter (fun m => negb (of_job j m)) (match_results d)))%list.
Proof.
  unfold with_matches. rewrite with_matches_rows. reflexivity.
Qed.

Lemma new_rows_of_other_job env j j' l table :
  j' <> j -> filter (of_job j') (new_rows env j l table) = [].
Proof.
  intros Hne. revert table. induction l as [|im t IH]; intros table; simpl.
  - reflexivity.
  - unfold of_job at 1. simpl.
    destruct (Z.eqb_spec j j'); [congruence | apply IH].
Qed.

Lemma filter_other_job j j' (l : list MatchResult.t) :
  j' <> j ->
  filter (of_job j') (filter (fun m => negb (of_job j m)) l) = filter (of_job j') l.
Proof.
  intros Hne. induction l as [|x t IH]; simpl; [reflexivity|].
  destruct (of_job j x) eqn:E; simpl.
  - assert (of_job j' x = false) as -> by (unfold of_job in *; lia). exact IH.
  - now rewrite IH.
Qed.

(** X8: a successful recompute for job [j] changes no other job's matches:
    for every other job, the listing afterwards is the listing in the store
    the matching routine left.  Job descriptions and consultant profiles are
    as the matching routine left them too. *)
Theorem recompute_leaves_other_jobs env d j d' out :
  run (get_all_match_results env j) d = (d', inr out) ->
  (forall j', j' <> j -> listing env d' j' = listing env (after_matching env j d) j') /\
  job_descriptions d' = job_descriptions (after_matching env j d) /\
  consultant_profiles d' = consultant_profiles (after_matching env j d).
Proof.
  intros H. destruct (recompute_success env d j d' out H)
    as (j0 & r & w & _ & _ & _ & -> & _).
  split; [|split].
  - intros j' Hne. unfold listing.
    rewrite !get_match_results_by_job_description_id_run. simpl.
    change (match_results (with_notification env j _ _ _ ?x)) with (match_results x).
    rewrite recomputed_rows, filter_app.
    rewrite (new_rows_of_other_job env j j' _ _ Hne), app_nil_r.
    change (match_results (with_completed w ?x)) with (match_results x).
    rewrite (filter_other_job j j' _ Hne). reflexivity.
  - change (job_descriptions (with_notification env j _ _ _ ?x))
      with (job_descriptions x).
    unfold with_matches.
    destruct (with_matches_frame env j (enumerate (all_matches r))
                (without_matches_of_job j (with_completed w (after_matching env j d))))
      as (-> & _). reflexivity.
  - change (consultant_profiles (with_notification env j _ _ _ ?x))
      with (consultant_profiles x).
    unfold with_matches.
    destruct (with_matches_frame env j (enumerate (all_matches r))
                (without_matches_of_job j (with_completed w (after_matching env j d))))
      as (_ & -> & _). reflexivity.
Qed.

(** X9: a successful recompute adds exactly one notification to those the
    matching routine left: addressed to the requestor of the job, carrying
    the message of the matching result, with status "sent", the current
    time, and the key of the workflow-status row it completed. *)
Theorem recompute_records_one_notification env d j d' out :
  run (get_all_match_results env j) d = (d', inr out) ->
  exists j0 r w,
    find (is_job j) (job_descriptions d) = Some j0 /\
    matching_answer env j d = inr (Some r) /\
    find (workflow_of_job j) (workflow_statuses (after_matching env j d)) = Some w /\
    notifications d' =
      (notifications (after_matching env j d) ++
       [Notification.mk
          (next_id (map Notification.id (notifications (after_matching env j d))))
          j (JobDescription.requestor_email j0) (WorkflowStatus.id w)
          (message r) "sent" (datetime_now env)])%list.
Proof.
  intros H. destruct (recompute_success env d j d' out H)
    as (j0 & r & w & Hj & Hm & Hw & -> & _).
  exists j0, r, w. repeat split; try assumption.
  unfold with_notification at 1. simpl. unfold with_matches.
  destruct (with_matches_frame env j (enumerate (all_matches r))
              (without_matches_of_job j (with_completed w (after_matching env j d))))
    as (_ & _ & _ & ->). reflexivity.
Qed.

(** X10: when the matching routine raises, the caller receives the internal
    error, status 500, and the store is the one the routine left: the
    workflow-status row created before the call is not taken back. *)
Theorem recompute_when_matching_raises env d j e :
  matching_answer env j d = inl e ->
  run (get_all_match_results env j) d =
    (after_matching env j d,
     inl (HTTPException 500 "An error occurred while fetching match results.")).
Proof.
  unfold matching_answer, after_matching. intros H.
  rewrite get_all_match_results_run. cbv zeta.
  destruct (run_agent_matching env (with_workflow_status j d) _ _) as [d2 a].
  simpl in *. subst a. reflexivity.
Qed.

Lemma new_rows_rank_lower env j (ms : list Match.t) i table :
  Forall (fun r => i + 1 <= MatchResult.rank r)
         (new_rows env j (enumerate_from i ms) table).
Proof.
  revert i table. induction ms as [|m t IH]; intros i table; simpl.
  - constructor.
  - constructor; [unfold matched_profile; simpl; lia|].
    eapply Forall_impl; [|apply IH]. simpl. intros r Hr. lia.
Qed.

Lemma new_rows_sorted env j (ms : list Match.t) i table :
  StronglySorted rank_le (new_rows env j (enumerate_from i ms) table).
Proof.
  revert i table. induction ms as [|m t IH]; intros i table; simpl.
  - constructor.
  - constructor; [apply IH|].
    eapply Forall_impl; [|apply new_rows_rank_lower].
    simpl. intros r Hr. unfold rank_le, matched_profile. simpl. lia.
Qed.

Lemma order_by_rank_asc_of_sorted l :
  StronglySorted rank_le l -> order_by_rank_asc l = l.
Proof.
  induction 1 as [|x t Hs IH Hx]; simpl; [reflexivity|].
  rewrite IH. destruct t as [|y t']; simpl; [reflexivity|].
  inversion Hx as [|? ? Hxy _]; subst. unfold rank_le in Hxy.
  destruct (Z.leb_spec (MatchResult.rank x) (MatchResult.rank y)); [reflexivity | lia].
Qed.

Lemma recomputed_top_rows env j ms d n extra :
  match_results extra = match_results (with_matches env j ms (without_matches_of_job j d)) ->
  top_rows j n extra =
  firstn n (new_rows env j (enumerate ms)
              (filter (fun m => negb (of_job j m)) (match_results d))).
Proof.
  intros H. unfold top_rows. rewrite H, recomputed_rows_of_job.
  rewrite order_by_rank_asc_of_sorted; [reflexivity|].
  apply new_rows_sorted.
Qed.

Lemma serialized_entries j ms :
  map (serialized_entry j) (serialized_matches ms) =
  map (computed_entry j) (enumerate ms).
Proof.
  unfold serialized_matches. rewrite map_map. apply map_ext. reflexivity.
Qed.

Lemma schema_entries env l :
  map schema_entry (map (model_validate env) l) = map stored_entry l.
Proof.
  rewrite map_map. apply map_ext. reflexivity.
Qed.

(** X11: after a successful recompute that returned a non-empty list, the
    generic top-n function with [n > 0] returns the first [n] of the
    recomputed matches, in the order of the returned list, each with the
    job, consultant, score and rank the recompute returned for it. *)
Theorem recompute_then_top_n env d j d' out n :
  run (get_all_match_results env j) d = (d', inr out) ->
  out <> [] ->
  (0 < n)%nat ->
  exists res,
    top env d' j n = inr res /\
    map schema_entry res = firstn n (map (serialized_entry j) out).
Proof.
  intros H Hout Hn. destruct (recompute_success env d j d' out H)
    as (j0 & r & w & _ & _ & _ & Hd & ->).
  assert (Htop : top_rows j n d' =
    firstn n (new_rows env j (enumerate (all_matches r))
                (filter (fun m => negb (of_job j m))
                        (match_results (with_completed w (after_matching env j d)))))).
  { apply recomputed_top_rows. rewrite Hd. reflexivity. }
  unfold top. rewrite get_top_match_results_by_job_description_id_run.
  cbn [snd]. rewrite Htop.
  rewrite serialized_entries, <- (new_rows_entries env j _
    (filter (fun m => negb (of_job j m))
            (match_results (with_completed w (after_matching env j d))))).
  rewrite firstn_map.
  destruct (all_matches r) as [|m ms]; [exfalso; apply Hout; reflexivity|].
  destruct n as [|n]; [lia|].
  cbn [enumerate enumerate_from new_rows firstn].
  eexists. split; [reflexivity|].
  apply schema_entries.
Qed.

(** X12: a successful recompute whose result holds no match leaves the job
    without stored matches: the listing and the generic top-n then report
    "not found" (404) and the top-3 function returns the empty list. *)
Theorem recompute_without_matches_clears_the_job env d j d' n :
  run (get_all_match_results env j) d = (d', inr []) ->
  listing env d' j =
    inl (HTTPException 404 "No match results found for the given job description ID.") /\
  top env d' j n =
    inl (HTTPException 404 "No match results found for the given job description ID.") /\
  run (get_top_3_matches env j) d' = (d', inr []).
Proof.
  intros H. destruct (recompute_success env d j d' [] H)
    as (j0 & r & w & _ & _ & _ & Hd & Hout).
  assert (Hms : all_matches r = []).
  { destruct (all_matches r); [reflexivity | discriminate]. }
  assert (Hrows : forall k, top_rows j k d' = []).
  { intros k.
    rewrite (recomputed_top_rows env j (all_matches r)
               (with_completed w (after_matching env j d)) k d');
      [|rewrite Hd; reflexivity].
    rewrite Hms. simpl. apply firstn_nil. }
  assert (Hjob : filter (of_job j) (match_results d') = []).
  { rewrite Hd.
    change (match_results (with_notification env j _ _ _ ?x)) with (match_results x).
    rewrite recomputed_rows_of_job, Hms. reflexivity. }
  unfold listing, top.
  rewrite get_match_results_by_job_description_id_run,
    get_top_match_results_by_job_description_id_run, get_top_3_matches_run.
  rewrite !Hrows, Hjob. repeat split.
Qed.

(** X13: when the job already has a workflow-status row from an earlier run
    and the matching routine leaves the store alone, a successful recompute
    marks that earlier row (the first of the job) COMPLETED, and the row it
    created itself, the last of the table, stays PROCESSING. *)
Theorem recompute_completes_the_first_workflow_row env d j w0 j0 r :
  find (workflow_of_job j) (workflow_statuses d) = Some w0 ->
  find (is_job j) (job_descriptions d) = Some j0 ->
  run_agent_matching env (with_workflow_status j d) (Some j0)
    (filter (not_unavailable env) (consultant_profiles d)) =
    (with_workflow_status j d, inr (Some r)) ->
  exists d',
    run (get_all_match_results env j) d =
      (d', inr (serialized_matches (all_matches r))) /\
    workflow_statuses d' =
      (map (fun x => if WorkflowStatus.id x =? WorkflowStatus.id w0
                     then WorkflowStatus.with_progress COMPLETED x else x)
           (workflow_statuses d) ++
       [WorkflowStatus.mk (next_id (map WorkflowStatus.id (workflow_statuses d))) j
          [("jd_parsed", true); ("profiles_compared", false)] PROCESSING])%list.
Proof.
  intros Hw Hj Hrun. rewrite get_all_match_results_run. cbv zeta.
  rewrite Hj, Hrun. simpl. rewrite find_app_l, Hw.
  eexists. split; [reflexivity|].
  change (workflow_statuses (with_notification env j _ _ _ ?x))
    with (workflow_statuses x).
  unfold with_matches.
  destruct (with_matches_frame env j (enumerate (all_matches r))
              (without_matches_of_job j (with_completed w0 (with_workflow_status j d))))
    as (_ & _ & -> & _).
  simpl. rewrite map_app. simpl. f_equal.
  assert (Hin : In (WorkflowStatus.id w0) (map WorkflowStatus.id (workflow_statuses d))).
  { apply in_map. apply (find_some _ _ Hw). }
  apply next_id_above in Hin.
  destruct (Z.eqb_spec (next_id (map WorkflowStatus.id (workflow_statuses d)))
                       (WorkflowStatus.id w0)); [lia | reflexivity].
Qed.

(** ** More on top-n *)

Lemma sorted_ranks l :
  StronglySorted rank_le l -> StronglySorted Z.le (map MatchResult.rank l).
Proof.
  induction 1 as [|x t Hs IH Hx]; simpl; constructor.
  - exact IH.
  - rewrite Forall_forall in Hx |- *. intros z Hz.
    apply in_map_iff in Hz. destruct Hz as (y & <- & Hy). apply (Hx y Hy).
Qed.

Lemma top_rows_length j n d :
  List.length (top_rows j n d) =
  Nat.min n (List.length (filter (of_job j) (match_results d))).
Proof.
  unfold top_rows. rewrite length_firstn.
  now rewrite <- (Permutation_length (order_by_rank_asc_perm _)).
Qed.

(** X14: [get_top_3_matches] never raises: it returns one entry per row of
    the job up to three, in ascending order of rank, and leaves the store as
    it is. *)
Theorem top_3_is_short_and_ranked env d j :
  exists out,
    run (get_top_3_matches env j) d = (d, inr out) /\
    List.length out =
      Nat.min 3 (List.length (filter (of_job j) (match_results d))) /\
    StronglySorted Z.le (map rp_rank out).
Proof.
  rewrite get_top_3_matches_run. eexists. split; [reflexivity|]. split.
  - rewrite length_map. apply top_rows_length.
  - rewrite map_map. simpl.
    apply sorted_ranks. apply (top_rows_split j 3 d).
Qed.


(** X16: with [n] at least the number of rows of a job that has some, the
    generic top-n function returns all the records the listing returns,
    rearranged in ascending order of rank. *)
Theorem top_n_of_everything_is_the_sorted_listing env d j n :
  filter (of_job j) (match_results d) <> [] ->
  (List.length (filter (of_job j) (match_results d)) <= n)%nat ->
  exists all out,
    listing env d j = inr all /\
    top env d j n = inr out /\
    Permutation all out /\
    StronglySorted schema_rank_le out.
Proof.
  intros Hne Hlen. unfold listing, top.
  rewrite get_match_results_by_job_description_id_run,
    get_top_match_results_by_job_description_id_run.
  cbn [snd].
  assert (Htop : top_rows j n d = order_by_rank_asc (filter (of_job j) (match_results d))).
  { unfold top_rows. apply firstn_all2.
    now rewrite <- (Permutation_length (order_by_rank_asc_perm _)). }
  rewrite Htop.
  pose proof (order_by_rank_asc_perm (filter (of_job j) (match_results d))) as P.
  pose proof (order_by_rank_asc_sorted (filter (of_job j) (match_results d))) as S.
  destruct (filter (of_job j) (match_results d)) as [|x t] eqn:E;
    [exfalso; apply Hne; reflexivity|].
  destruct (order_by_rank_asc (x :: t)) as [|y u] eqn:E'.
  - apply Permutation_sym, Permutation_nil in P. discriminate.
  - eexists. eexists. split; [reflexivity|]. split; [reflexivity|]. split.
    + apply Permutation_map, P.
    + apply model_validate_sorted, S.
Qed.

(** X17: the top-3 function and the generic top-n function with [n = 3]
    agree: when the latter returns records, the former returns as many
    entries, with the same ranks and scores in the same order. *)
Theorem top_3_agrees_with_top_n env d j res :
  top env d j 3 = inr res ->
  exists out,
    run (get_top_3_matches env j) d = (d, inr out) /\
    map (fun e => (rp_rank e, rp_similarity_score e)) out =
    map (fun r => (MatchResultSchema.rank r, MatchResultSchema.similarity_score r)) res.
Proof.
  unfold top. rewrite get_top_match_results_by_job_description_id_run,
    get_top_3_matches_run. cbn [snd].
  intros H. eexists. split; [reflexivity|].
  destruct (top_rows j 3 d) as [|x t]; [discriminate|].
  injection H as <-.
  change (model_validate env x :: map (model_validate env) t)
    with (map (model_validate env) (x :: t)).
  rewrite !map_map. reflexivity.
Qed.

(** ** Concrete runs of the further properties *)

Lemma update_and_delete_of_absent_id_witness :
  run (update_match_result_by_id matching_env 99 (sample_payload (Some 99))) sample_db =
    (sample_db, inl (HTTPException 404 "Match result not found.")) /\
  run (delete_match_result_by_id 99) sample_db =
    (sample_db, inl (HTTPException 404 "Match result not found.")).
Proof.
  apply (update_and_delete_of_absent_id matching_env sample_db 99
           (sample_payload (Some 99))).
  simpl. intros [H|[H|[H|[]]]]; discriminate.
Defined.

Lemma delete_leaves_other_rows_witness :
  fetch matching_env (fst (run (delete_match_result_by_id 5) sample_db)) 7 =
    fetch matching_env sample_db 7 /\
  snd (run (delete_match_result_by_id 5)
           (fst (run (delete_match_result_by_id 5) sample_db))) =
    inl (HTTPException 404 "Match result not found.").
Proof.
  apply (delete_leaves_other_rows matching_env sample_db 5 7). discriminate.
Defined.

Lemma update_leaves_other_rows_witness :
  fetch matching_env
    (fst (run (update_match_result_by_id matching_env 5 (sample_payload (Some 5)))
              sample_db)) 7 = fetch matching_env sample_db 7 /\
  List.length
    (match_results
       (fst (run (update_match_result_by_id matching_env 5 (sample_payload (Some 5)))
                 sample_db))) = List.length (match_results sample_db).
Proof.
  apply (update_leaves_other_rows matching_env sample_db 5 7 (sample_payload (Some 5))).
  - discriminate.
  - reflexivity.
Defined.

Lemma add_appends_to_the_listing_witness :
  exists d' r,
    run (add_match_result matching_env bare_payload) sample_db = (d', inr r) /\
    same_fields matching_env bare_payload r /\
    listing matching_env d' (MatchResultSchema.job_description_id bare_payload) =
      inr (map (model_validate matching_env)
               (filter (of_job (MatchResultSchema.job_description_id bare_payload))
                       (match_results sample_db)) ++ [r])%list /\
    forall k, In k (map MatchResult.id (match_results sample_db)) ->
              fetch matching_env d' k = fetch matching_env sample_db k.
Proof.
  apply (add_appends_to_the_listing matching_env sample_db bare_payload).
  reflexivity.
Defined.

Lemma add_then_get_returns_the_record_witness :
  exists d' r k,
    run (add_match_result matching_env (sample_payload None)) sample_db = (d', inr r) /\
    MatchResultSchema.id r = Some k /\
    ~ In k (map MatchResult.id (match_results sample_db)) /\
    fetch matching_env d' k = inr r.
Proof.
  apply (add_then_get_returns_the_record matching_env sample_db (sample_payload None)).
  - reflexivity.
  - reflexivity.
Defined.

Lemma recompute_leaves_other_jobs_witness :
  (forall j', j' <> 1 ->
     listing matching_env (fst (run (get_all_match_results matching_env 1) sample_db)) j' =
     listing matching_env (after_matching matching_env 1 sample_db) j') /\
  job_descriptions (fst (run (get_all_match_results matching_env 1) sample_db)) =
    job_descriptions (after_matching matching_env 1 sample_db) /\
  consultant_profiles (fst (run (get_all_match_results matching_env 1) sample_db)) =
    consultant_profiles (after_matching matching_env 1 sample_db).
Proof.
  apply (recompute_leaves_other_jobs matching_env sample_db 1 _
           (serialized_matches (all_matches sample_result))).
  vm_compute. reflexivity.
Defined.

Lemma recompute_records_one_notification_witness :
  exists j0 r w,
    find (is_job 1) (job_descriptions sample_db) = Some j0 /\
    matching_answer matching_env 1 sample_db = inr (Some r) /\
    find (workflow_of_job 1)
         (workflow_statuses (after_matching matching_env 1 sample_db)) = Some w /\
    notifications (fst (run (get_all_match_results matching_env 1) sample_db)) =
      (notifications (after_matching matching_env 1 sample_db) ++
       [Notification.mk
          (next_id (map Notification.id
                        (notifications (after_matching matching_env 1 sample_db))))
          1 (JobDescription.requestor_email j0) (WorkflowStatus.id w)
          (message r) "sent" (datetime_now matching_env)])%list.
Proof.
  apply (recompute_records_one_notification matching_env sample_db 1 _
           (serialized_matches (all_matches sample_result))).
  vm_compute. reflexivity.
Defined.

Lemma recompute_when_matching_raises_witness :
  run (get_all_match_results matching_down_env 1) sample_db =
    (after_matching matching_down_env 1 sample_db,
     inl (HTTPException 500 "An error occurred while fetching match results.")).
Proof.
  apply (recompute_when_matching_raises matching_down_env sample_db 1
           (Raised "TimeoutError")).
  reflexivity.
Defined.

Lemma recompute_then_top_n_witness :
  exists res,
    top matching_env (fst (run (get_all_match_results matching_env 1) sample_db)) 1 1 =
      inr res /\
    map schema_entry res =
      firstn 1 (map (serialized_entry 1)
                    (serialized_matches (all_matches sample_result))).
Proof.
  apply (recompute_then_top_n matching_env sample_db 1 _
           (serialized_matches (all_matches sample_result)) 1).
  - vm_compute. reflexivity.
  - discriminate.
  - lia.
Defined.

Lemma recompute_without_matches_clears_the_job_witness :
  listing no_match_env (fst (run (get_all_match_results no_match_env 1) sample_db)) 1 =
    inl (HTTPException 404 "No match results found for the given job description ID.") /\
  top no_match_env (fst (run (get_all_match_results no_match_env 1) sample_db)) 1 3 =
    inl (HTTPException 404 "No match results found for the given job description ID.") /\
  run (get_top_3_matches no_match_env 1)
      (fst (run (get_all_match_results no_match_env 1) sample_db)) =
    (fst (run (get_all_match_results no_match_env 1) sample_db), inr []).
Proof.
  apply (recompute_without_matches_clears_the_job no_match_env sample_db 1).
  vm_compute. reflexivity.
Defined.

Lemma recompute_completes_the_first_workflow_row_witness :
  exists d',
    run (get_all_match_results matching_env 1) sample_db_second_run =
      (d', inr (serialized_matches (all_matches sample_result))) /\
    workflow_statuses d' =
      [WorkflowStatus.mk 1 1 [("jd_parsed", true); ("profiles_compared", false)] COMPLETED;
       WorkflowStatus.mk 2 1 [("jd_parsed", true); ("profiles_compared", false)] PROCESSING].
Proof.
  apply (recompute_completes_the_first_workflow_row matching_env sample_db_second_run 1
           (WorkflowStatus.mk 1 1 [("jd_parsed", true); ("profiles_compared", false)]
              COMPLETED)
           (JobDescription.mk 1 "requestor@example.org") sample_result).
  - reflexivity.
  - reflexivity.
  - reflexivity.
Defined.


Lemma top_n_of_everything_is_the_sorted_listing_witness :
  exists all out,
    listing matching_env sample_db 1 = inr all /\
    top matching_env sample_db 1 5 = inr out /\
    Permutation all out /\
    StronglySorted schema_rank_le out.
Proof.
  apply (top_n_of_everything_is_the_sorted_listing matching_env sample_db 1 5).
  - discriminate.
  - simpl. lia.
Defined.

Lemma top_3_agrees_with_top_n_witness :
  exists out,
    run (get_top_3_matches matching_env 1) sample_db = (sample_db, inr out) /\
    map (fun e => (rp_rank e, rp_similarity_score e)) out =
    map (fun r => (MatchResultSchema.rank r, MatchResultSchema.similarity_score r))
        (map (model_validate matching_env) (top_rows 1 3 sample_db)).
Proof.
  apply (top_3_agrees_with_top_n matching_env sample_db 1
           (map (model_validate matching_env) (top_rows 1 3 sample_db))).
  reflexivity.
Defined.
